(** * The Revit MCP tool handler (docker/mcp-tool-handler.py)

    A shallow embedding of the bridge between the MCP tool protocol and the
    Revit MCP Server: the schema loader, the readiness probe, the registry
    client, the two translators, the request dispatcher, the HTTP front end
    and the shutdown sequence, followed by the properties of each.

    Python values are modelled by the type [value]; a Python [dict] is an
    association list in insertion order.  Exceptions are explicit ([result]),
    and everything a method does to the outside world (log lines, HTTP calls,
    sleeps, signals, bytes written to the client) is recorded in a trace of
    [event]s.  What the outside world answers is a parameter of each method. *)

From Stdlib Require Import ZArith String Ascii List Bool Lia DecimalString.
Import ListNotations.
Local Open Scope string_scope.
Set Warnings "-register-all".

(* ===================================================================== *)
(** ** Python values and exceptions *)
(* ===================================================================== *)

Module Py.

(** The values that flow through the handler: everything [json.load] can
    produce, which is also everything the handler builds.  A float is kept
    as its binary64 bit pattern; the handler never inspects one. *)
Inductive value : Type :=
| VNone
| VBool (b : bool)
| VInt (z : Z)
| VFloat (bits : Z)
| VStr (s : string)
| VList (items : list value)
| VDict (entries : list (string * value)).

Definition dict : Type := list (string * value).

(** [type(v).__name__] *)
Definition type_name (v : value) : string :=
  match v with
  | VNone => "NoneType"
  | VBool _ => "bool"
  | VInt _ => "int"
  | VFloat _ => "float"
  | VStr _ => "str"
  | VList _ => "list"
  | VDict _ => "dict"
  end.

(** Instances of [Exception].  [KeyboardInterrupt] and [SystemExit] derive
    from [BaseException] only and are outside the model, so that
    [except Exception] catches every [exn]. *)
Inductive exn_class : Type :=
| ValueError
| TypeError
| AttributeError
| RuntimeError
| OSError
| UnicodeDecodeError
| JSONDecodeError
| ConnectionError          (* requests.exceptions.ConnectionError *)
| RequestException         (* any other requests.exceptions.* *)
| TimeoutExpired.          (* subprocess.TimeoutExpired *)

Record exn : Type := mkExn { exn_kind : exn_class; exn_msg : string }.

(** [str(e)] *)
Definition str (e : exn) : string := exn_msg e.

(** [except requests.exceptions.ConnectionError] *)
Definition is_ConnectionError (e : exn) : bool :=
  match exn_kind e with ConnectionError => true | _ => false end.

Inductive result (A : Type) : Type :=
| Ok (a : A)
| Raise (e : exn).
Arguments Ok {A} a.
Arguments Raise {A} e.

Definition rbind {A B : Type} (r : result A) (k : A -> result B) : result B :=
  match r with
  | Ok a => k a
  | Raise e => Raise e
  end.

(** [d.get(key)] on a dictionary: the first binding of [key] (a Python
    dict binds a key once). *)
Fixpoint dict_get (d : dict) (key : string) : option value :=
  match d with
  | [] => None
  | (k, v) :: rest => if String.eqb k key then Some v else dict_get rest key
  end.

(** [d[key] = v]: replaces the value in place, or appends a new binding. *)
Fixpoint dict_set (d : dict) (key : string) (v : value) : dict :=
  match d with
  | [] => [(key, v)]
  | (k, w) :: rest =>
      if String.eqb k key then (k, v) :: rest else (k, w) :: dict_set rest key v
  end.

(** [d.get(key, default)] *)
Definition dict_get_or (d : dict) (key : string) (default : value) : value :=
  match dict_get d key with
  | Some v => v
  | None => default
  end.

(** [x.get(key, default)] on an arbitrary value: only a dict has [get]. *)
Definition get (x : value) (key : string) (default : value) : result value :=
  match x with
  | VDict d => Ok (dict_get_or d key default)
  | other =>
      Raise (mkExn AttributeError
               ("'" ++ type_name other ++ "' object has no attribute 'get'"))
  end.

(** [x == s] for a string literal [s] *)
Definition eq_str (x : value) (s : string) : bool :=
  match x with
  | VStr t => String.eqb t s
  | _ => false
  end.

(** [str(n)] for an int *)
Definition str_int (z : Z) : string := NilZero.string_of_int (Z.to_int z).

(** [s.endswith(suffix)] *)
Definition endswith (s suffix : string) : bool :=
  let n := String.length s in
  let m := String.length suffix in
  (m <=? n)%nat && String.eqb (substring (n - m) m s) suffix.

(** [s.split(c)[0]]: the characters before the first [c]. *)
Fixpoint split_first (c : ascii) (s : string) : string :=
  match s with
  | EmptyString => EmptyString
  | String a rest =>
      if Ascii.eqb a c then EmptyString else String a (split_first c rest)
  end.

(** [s.split(c)[-1]]: the characters after the last [c]. *)
Fixpoint split_last (c : ascii) (s : string) : string :=
  match s with
  | EmptyString => EmptyString
  | String a rest =>
      if existsb (Ascii.eqb c) (list_ascii_of_string rest) then split_last c rest
      else if Ascii.eqb a c then rest
      else s
  end.

(** [s.lstrip(c)], [s.rstrip(c)] and [s.strip(c)] for a single character *)
Fixpoint lstrip (c : ascii) (s : string) : string :=
  match s with
  | String a rest => if Ascii.eqb a c then lstrip c rest else s
  | EmptyString => EmptyString
  end.

Fixpoint rstrip (c : ascii) (s : string) : string :=
  match s with
  | EmptyString => EmptyString
  | String a rest =>
      match rstrip c rest with
      | EmptyString => if Ascii.eqb a c then EmptyString else String a EmptyString
      | kept => String a kept
      end
  end.

Definition strip (c : ascii) (s : string) : string := rstrip c (lstrip c s).

End Py.
Import Py.

Notation "'let*' x ':=' r 'in' k" := (rbind r (fun x => k))
  (at level 10, x name, r at level 100, k at level 200).

(* ===================================================================== *)
(** ** Effects: the trace of observable actions *)
(* ===================================================================== *)

Inductive level : Type := INFO | ERROR.

Inductive http_method : Type := GET | POST.

(** One call to [requests.get] /\
 [requests.post]. *)
Record http_call : Type := mkCall {
  call_method : http_method;
  call_url : string;
  call_json : option value;
  call_headers : list (string * string)
}.

(** What the handler reads from a [requests.Response]: [status_code],
    [text], and the outcome of [json()]. *)
Record response : Type := mkResponse {
  status_code : Z;
  text : string;
  json : result value
}.

(** The subprocess handle kept in [self.revit_server_process]. *)
Record process : Type := mkProcess { pid : Z }.

Inductive event : Type :=
| EvLog (lvl : level) (msg : string)      (* logger.info /\
 error /\
 exception *)
| EvHttp (c : http_call)                  (* requests.get /\
 requests.post *)
| EvSleep (seconds : Z)                   (* time.sleep *)
| EvTerminate (p : process)               (* Popen.terminate *)
| EvWait (p : process) (timeout : Z)      (* Popen.wait(timeout=...) *)
| EvSendResponse (code : Z)               (* self.send_response *)
| EvSendHeader (k v : string)             (* self.send_header *)
| EvEndHeaders                            (* self.end_headers *)
| EvWrite (body : value).                 (* wfile.write(json.dumps(body).encode('utf-8')) *)

(** A computation: the events it emitted, in order, and how it ended. *)
Definition M (A : Type) : Type := (list event * result A)%type.

Definition ret {A : Type} (a : A) : M A := ([], Ok a).

Definition raise {A : Type} (e : exn) : M A := ([], Raise e).

Definition bind {A B : Type} (m : M A) (k : A -> M B) : M B :=
  match m with
  | (t, Ok a) => let (t', r) := k a in ((t ++ t')%list, r)
  | (t, Raise e) => (t, Raise e)
  end.

(** [try: m  except Exception as e: h e] *)
Definition try_except {A : Type} (m : M A) (h : exn -> M A) : M A :=
  match m with
  | (t, Ok a) => (t, Ok a)
  | (t, Raise e) => let (t', r) := h e in ((t ++ t')%list, r)
  end.

Definition lift {A : Type} (r : result A) : M A := ([], r).

Definition emit (e : event) : M unit := ([e], Ok tt).

Definition trace {A : Type} (m : M A) : list event := fst m.

Definition outcome {A : Type} (m : M A) : result A := snd m.

Notation "x <- m ;; k" := (bind m (fun x => k))
  (at level 100, m at next level, right associativity).
Notation "m ;; k" := (bind m (fun _ => k))
  (at level 100, right associativity).

(** The network as the handler sees it: the answer to its [n]-th call
    (counted within one method invocation) -- a response, or an exception
    raised by [requests]. *)
Definition network : Type := nat -> http_call -> result response.

Definition requests_call (net : network) (n : nat) (c : http_call) : M response :=
  emit (EvHttp c) ;; lift (net n c).

Definition is_http (e : event) : bool :=
  match e with EvHttp _ => true | _ => false end.

Definition is_log (e : event) : bool :=
  match e with EvLog _ _ => true | _ => false end.

(** The outbound network calls of a trace, in order. *)
Definition http_calls (t : list event) : list event := filter is_http t.

(* ===================================================================== *)
(** ** The handler *)
(* ===================================================================== *)

(** Configuration read from the environment when the module is loaded. *)
Record config : Type := mkConfig {
  REGISTRY_URL : string;
  TOOL_ID : string;
  AUTH_TOKEN : string;
  TOOL_PORT : Z;
  REVIT_HOST : string;
  REVIT_PORT : Z
}.

(** The defaults of [os.environ.get]. *)
Definition default_config : config :=
  mkConfig "http://localhost:8081" "revit" "default-dev-token" 8082
           "localhost" 5000.

(** [RevitMcpToolHandler]: its two attributes. *)
Record handler : Type := mkHandler {
  tool_schemas : dict;
  revit_server_process : option process
}.

(** *** Schema Store: [_load_tool_schemas] *)

(** One entry of [os.listdir(SCHEMA_DIR)]: the file name, and what
    [open] followed by [json.load] gives for it. *)
Definition dir_entry : Type := (string * result value)%type.

Fixpoint load_entries (entries : list dir_entry) (schemas : dict) : result dict :=
  match entries with
  | [] => Ok schemas
  | (filename, content) :: rest =>
      if endswith filename ".json" then
        let tool_name := split_first "." filename in
        let* schema := content in
        load_entries rest (dict_set schemas tool_name schema)
      else load_entries rest schemas
  end.

Definition _load_tool_schemas (listdir : result (list dir_entry)) : result dict :=
  let* entries := listdir in
  load_entries entries [].

(** [__init__] *)
Definition init (listdir : result (list dir_entry)) : result handler :=
  let* schemas := _load_tool_schemas listdir in
  Ok (mkHandler schemas None).

Section Handler.

Variable cfg : config.

Definition log (lvl : level) (msg : string) : M unit := emit (EvLog lvl msg).

Definition revit_url (path : string) : string :=
  "http://" ++ REVIT_HOST cfg ++ ":" ++ str_int (REVIT_PORT cfg) ++ path.

(** *** Backend Supervisor: [_wait_for_server_ready] *)

Definition status_call : http_call :=
  mkCall GET (revit_url "/api/status") None [].

(** [time.sleep(seconds)]: a negative length is refused with a
    [ValueError] and nothing is slept. *)
Definition sleep (seconds : Z) : M unit :=
  if (seconds <? 0)%Z then
    raise (mkExn ValueError "sleep length must be non-negative")
  else emit (EvSleep seconds).

(** The body of [for _ in range(max_retries)], from attempt [n] on, with
    [remaining] iterations left.  [None] is falling out of the loop,
    [Some v] is the [return] inside it.  The sleep is outside the [try]. *)
Fixpoint wait_loop (net : network) (retry_interval : Z) (n remaining : nat)
  : M (option value) :=
  match remaining with
  | O => ret None
  | S remaining' =>
      ready <-
        try_except
          (response <- requests_call net n status_call ;;
           if (status_code response =? 200)%Z then
             log INFO "Revit MCP Server is ready" ;;
             ret true
           else ret false)
          (fun e => if is_ConnectionError e then ret false else raise e) ;;
      if ready : bool then ret (Some VNone)
      else
        sleep retry_interval ;;
        wait_loop net retry_interval (S n) remaining'
  end.

Definition _wait_for_server_ready (net : network) (max_retries retry_interval : Z)
  : M value :=
  log INFO ("Waiting for Revit MCP Server at http://" ++ REVIT_HOST cfg ++ ":"
            ++ str_int (REVIT_PORT cfg) ++ "...") ;;
  returned <- wait_loop net retry_interval 0 (Z.to_nat max_retries) ;;
  match returned with
  | Some v => ret v
  | None =>
      log ERROR ("Revit MCP Server not ready after "
                 ++ str_int (max_retries * retry_interval) ++ " seconds") ;;
      raise (mkExn RuntimeError "Failed to connect to Revit MCP Server")
  end.

(** *** Registry Client: [register_tools] *)

Definition registration_data (tool_name : string) (schema : value) : result value :=
  let tool_id := TOOL_ID cfg ++ "." ++ tool_name in
  let* name := get schema "name" (VStr tool_name) in
  let* description := get schema "description" (VStr "") in
  let* version := get schema "version" (VStr "1.0.0") in
  let* input_schema := get schema "input_schema" (VDict []) in
  let* output_schema := get schema "output_schema" (VDict []) in
  Ok (VDict [("id", VStr tool_id);
             ("name", name);
             ("description", description);
             ("version", version);
             ("input_schema", input_schema);
             ("output_schema", output_schema);
             ("endpoint", VStr ("http://revit-mcp-tool:" ++ str_int (TOOL_PORT cfg)
                                ++ "/tools/" ++ tool_name))]).

(** One iteration of the loop over [self.tool_schemas.items()]; [n] is the
    number of registry calls made before it. *)
Definition registry_call (data : value) : http_call :=
  mkCall POST (REGISTRY_URL cfg ++ "/v1/tools") (Some data)
    [("Authorization", "Bearer " ++ AUTH_TOKEN cfg)].

Definition register_one (net : network) (n : nat) (tool_name : string)
  (schema : value) : M unit :=
  let tool_id := TOOL_ID cfg ++ "." ++ tool_name in
  data <- lift (registration_data tool_name schema) ;;
  try_except
    (response <- requests_call net n (registry_call data) ;;
     if (status_code response =? 200)%Z || (status_code response =? 201)%Z then
       log INFO ("Successfully registered tool: " ++ tool_id)
     else
       log ERROR ("Failed to register tool " ++ tool_id ++ ": "
                  ++ str_int (status_code response) ++ " - " ++ text response))
    (fun e => log ERROR ("Error registering tool " ++ tool_id ++ ": " ++ str e)).

Fixpoint register_loop (net : network) (n : nat) (items : dict) : M unit :=
  match items with
  | [] => ret tt
  | (tool_name, schema) :: rest =>
      register_one net n tool_name schema ;;
      register_loop net (S n) rest
  end.

Definition register_tools (self : handler) (net : network) : M value :=
  log INFO ("Registering tools with MCP registry at " ++ REGISTRY_URL cfg ++ "...") ;;
  register_loop net 0 (tool_schemas self) ;;
  ret VNone.

(** *** Request Translator *)

Definition translate_mcp_to_revit (tool_name : string) (mcp_request : value)
  : result value :=
  if tool_name =? "revit_element_query" then
    let* inputs := get mcp_request "inputs" (VDict []) in
    let* category := get inputs "category" (VStr "") in
    let* inputs := get mcp_request "inputs" (VDict []) in
    let* filter_expr := get inputs "filter" (VStr "") in
    Ok (VDict [("action", VStr "getElementsByCategory");
               ("parameters", VDict [("category", category);
                                     ("filterExpression", filter_expr)])])
  else if tool_name =? "revit_dynamo_execute" then
    let* inputs := get mcp_request "inputs" (VDict []) in
    let* script_path := get inputs "script_path" (VStr "") in
    let* inputs := get mcp_request "inputs" (VDict []) in
    let* parameters := get inputs "parameters" (VDict []) in
    Ok (VDict [("action", VStr "runDynamoScript");
               ("parameters", VDict [("scriptPath", script_path);
                                     ("scriptParameters", parameters)])])
  else Raise (mkExn ValueError ("Unknown tool: " ++ tool_name)).

Definition translate_revit_to_mcp (tool_name : string) (revit_response : value)
  : result value :=
  let* status := get revit_response "status" VNone in
  if eq_str status "error" then
    let* error := get revit_response "error" (VStr "Unknown error") in
    Ok (VDict [("status", VStr "error"); ("error", error)])
  else
    let* data := get revit_response "data" (VDict []) in
    if tool_name =? "revit_element_query" then
      Ok (VDict [("status", VStr "success"); ("result", data)])
    else if tool_name =? "revit_dynamo_execute" then
      Ok (VDict [("status", VStr "success");
                 ("result", VDict [("success", VBool true); ("results", data)])])
    else Raise (mkExn ValueError ("Unknown tool: " ++ tool_name)).

(** *** Request Dispatcher: [handle_tool_request] *)

(** The uniform error result [{"status": "error", "error": msg}]. *)
Definition error_result (msg : value) : value :=
  VDict [("status", VStr "error"); ("error", msg)].

Definition handle_tool_request (self : handler) (net : network)
  (tool_name : string) (request_data : value) : M value :=
  log INFO ("Handling request for tool: " ++ tool_name) ;;
  try_except
    (revit_request <- lift (translate_mcp_to_revit tool_name request_data) ;;
     endpoint <-
       (if tool_name =? "revit_element_query" then
          ret (revit_url "/api/element/mcp")
        else if tool_name =? "revit_dynamo_execute" then
          ret (revit_url "/api/dynamo/mcp")
        else raise (mkExn ValueError ("Unknown tool: " ++ tool_name))) ;;
     response <- requests_call net 0
                   (mkCall POST endpoint (Some revit_request)
                      [("Content-Type", "application/json")]) ;;
     if negb (status_code response =? 200)%Z then
       ret (error_result
              (VStr ("Revit MCP Server returned status "
                     ++ str_int (status_code response) ++ ": " ++ text response)))
     else
       revit_response <- lift (json response) ;;
       lift (translate_revit_to_mcp tool_name revit_response))
    (fun e =>
       log ERROR ("Error handling tool request: " ++ str e) ;;
       ret (error_result (VStr (str e)))).

(** *** [shutdown] *)

(** [wait_result] is what [Popen.wait(timeout=5)] does: it returns when the
    process has exited within the timeout and raises
    [subprocess.TimeoutExpired] otherwise. *)
Definition shutdown (self : handler) (wait_result : result Z) : M value :=
  match revit_server_process self with
  | Some p =>
      log INFO "Stopping Revit MCP Server..." ;;
      emit (EvTerminate p) ;;
      emit (EvWait p 5) ;;
      _ <- lift wait_result ;;
      ret tt
  | None => ret tt
  end ;;
  log INFO "Revit MCP Tool Handler shutdown complete" ;;
  ret VNone.

(** *** HTTP front end: [MCP_ToolRequestHandler.do_POST] *)

(** An inbound POST as [do_POST] reads it: the outcome of
    [int(self.headers['Content-Length'])], the outcome of
    [json.loads(post_data.decode('utf-8'))] on the body read,
    [self.path], and what the access log shows of the request:
    [self.address_string()] and [self.requestline]. *)
Record post_request : Type := mkPost {
  content_length : result Z;
  body_json : result value;
  path : string;
  address_string : string;
  requestline : string
}.

(** [log_message(format, *args)], the handler's override: [message] is
    [format % args]. *)
Definition log_message (rq : post_request) (message : string) : M unit :=
  log INFO ("HTTP: " ++ address_string rq ++ " - " ++ message).

Definition dquote : string := String "034"%char EmptyString.

(** [log_request(code)] of the base handler:
    [log_message('"%s" %s %s', self.requestline, str(code), '-')]. *)
Definition log_request (rq : post_request) (code : Z) : M unit :=
  log_message rq (dquote ++ requestline rq ++ dquote ++ " " ++ str_int code ++ " -").

(** [send_response(code)] of the base handler: it logs the request, then
    starts the response. *)
Definition send_response (rq : post_request) (code : Z) : M unit :=
  log_request rq code ;;
  emit (EvSendResponse code).

Definition do_POST (self : handler) (net : network) (rq : post_request) : M value :=
  _ <- lift (content_length rq) ;;
  request_data <- lift (body_json rq) ;;
  let tool_name := split_last "/" (strip "/" (path rq)) in
  response_data <- handle_tool_request self net tool_name request_data ;;
  send_response rq 200 ;;
  emit (EvSendHeader "Content-type" "application/json") ;;
  emit EvEndHeaders ;;
  emit (EvWrite response_data) ;;
  ret VNone.

End Handler.

(* ===================================================================== *)
(** ** Vocabulary of the properties *)
(* ===================================================================== *)

(** The tool names the translators branch on. *)
Definition known_tools : list string :=
  ["revit_element_query"; "revit_dynamo_execute"].

Definition known_tool (tool_name : string) : bool :=
  existsb (String.eqb tool_name) known_tools.

(** [{"status": "error", "error": <anything>}] *)
Definition uniform_error (v : value) : Prop :=
  exists msg, v = error_result msg.

(** [{"status": "success", "result": <anything>}] *)
Definition success_shape (v : value) : Prop :=
  exists payload, v = VDict [("status", VStr "success"); ("result", payload)].

(** The [status] field of a result says "error". *)
Definition reports_error (v : value) : bool :=
  match v with
  | VDict d => match dict_get d "status" with
               | Some st => eq_str st "error"
               | None => false
               end
  | _ => false
  end.

(** The backend path the dispatcher posts a known tool's request to. *)
Definition backend_endpoint (cfg : config) (tool_name : string) : string :=
  if tool_name =? "revit_element_query" then revit_url cfg "/api/element/mcp"
  else revit_url cfg "/api/dynamo/mcp".

Definition backend_call (cfg : config) (tool_name : string) (revit_request : value)
  : http_call :=
  mkCall POST (backend_endpoint cfg tool_name) (Some revit_request)
    [("Content-Type", "application/json")].

(** The ways one request can fail inside the dispatcher, each with the
    message the caller is given. *)
Inductive stage_failure (cfg : config) (net : network) (tool_name : string)
  (request_data : value) : string -> Prop :=
| unknown_tool :
    known_tool tool_name = false ->
    stage_failure cfg net tool_name request_data ("Unknown tool: " ++ tool_name)
| malformed_payload e :
    translate_mcp_to_revit tool_name request_data = Raise e ->
    stage_failure cfg net tool_name request_data (str e)
| transport_failure rq e :
    translate_mcp_to_revit tool_name request_data = Ok rq ->
    net 0%nat (backend_call cfg tool_name rq) = Raise e ->
    stage_failure cfg net tool_name request_data (str e)
| backend_status rq r :
    translate_mcp_to_revit tool_name request_data = Ok rq ->
    net 0%nat (backend_call cfg tool_name rq) = Ok r ->
    status_code r <> 200%Z ->
    stage_failure cfg net tool_name request_data
      ("Revit MCP Server returned status " ++ str_int (status_code r)
       ++ ": " ++ text r)
| undecodable_response rq r e :
    translate_mcp_to_revit tool_name request_data = Ok rq ->
    net 0%nat (backend_call cfg tool_name rq) = Ok r ->
    status_code r = 200%Z ->
    json r = Raise e ->
    stage_failure cfg net tool_name request_data (str e)
| translation_error rq r body e :
    translate_mcp_to_revit tool_name request_data = Ok rq ->
    net 0%nat (backend_call cfg tool_name rq) = Ok r ->
    status_code r = 200%Z ->
    json r = Ok body ->
    translate_revit_to_mcp tool_name body = Raise e ->
    stage_failure cfg net tool_name request_data (str e).

(** The access-log line [send_response] writes for a request. *)
Definition access_log (rq : post_request) (code : Z) : event :=
  EvLog INFO ("HTTP: " ++ address_string rq ++ " - " ++ dquote
              ++ requestline rq ++ dquote ++ " " ++ str_int code ++ " -").

(** The four events with which [do_POST] answers. *)
Definition reply (code : Z) (body : value) : list event :=
  [EvSendResponse code; EvSendHeader "Content-type" "application/json";
   EvEndHeaders; EvWrite body].

Definition is_reply (e : event) : bool :=
  match e with
  | EvSendResponse _ | EvSendHeader _ _ | EvEndHeaders | EvWrite _ => true
  | _ => false
  end.


(** The [inputs] mapping of a request is usable: absent, or a dict. *)
Definition inputs_of (request : dict) : option dict :=
  match dict_get request "inputs" with
  | None => Some []
  | Some (VDict i) => Some i
  | Some _ => None
  end.

(** A readiness probe that does not end the wait: a response with a status
    other than 200, or a [ConnectionError]. *)
Definition attempt_fails (cfg : config) (net : network) (n : nat) : bool :=
  match net n (status_call cfg) with
  | Ok r => negb (status_code r =? 200)%Z
  | Raise e => is_ConnectionError e
  end.

(** The events of [k] failed attempts. *)
Fixpoint failed_attempts (cfg : config) (retry_interval : Z) (k : nat) : list event :=
  match k with
  | O => []
  | S k' => EvHttp (status_call cfg) :: EvSleep retry_interval
            :: failed_attempts cfg retry_interval k'
  end.

(** The registry accepted the [n]-th registration call. *)
Definition registered (net : network) (n : nat) (c : http_call) : bool :=
  match net n c with
  | Ok r => (status_code r =? 200)%Z || (status_code r =? 201)%Z
  | Raise _ => false
  end.

Definition outcome_level (net : network) (n : nat) (c : http_call) : level :=
  if registered net n c then INFO else ERROR.

Definition is_schema_dict (item : string * value) : Prop :=
  exists d, snd item = VDict d.

(** What the registration loop does for the schemas [items], the first of
    them being call number [n]: for each schema in turn, one call carrying
    its registration data, then one log line with the outcome. *)
Inductive registration_events (cfg : config) (net : network)
  : nat -> dict -> list event -> Prop :=
| reg_done n : registration_events cfg net n [] []
| reg_step n tool_name schema data msg rest evs :
    registration_data cfg tool_name schema = Ok data ->
    registration_events cfg net (S n) rest evs ->
    registration_events cfg net n ((tool_name, schema) :: rest)
      (EvHttp (registry_call cfg data)
       :: EvLog (outcome_level net n (registry_call cfg data)) msg
       :: evs).

(** A backend that answers every call with [200] and the given body. *)
Definition always_ok (body : value) : network :=
  fun _ _ => Ok (mkResponse 200 "" (Ok body)).

(** A backend or registry that answers every call with a bare status. *)
Definition always_status (code : Z) : network :=
  fun _ _ => Ok (mkResponse code "" (Raise (mkExn JSONDecodeError "Expecting value"))).

(** An unreachable host. *)
Definition unreachable : network :=
  fun _ _ => Raise (mkExn ConnectionError "Connection refused").

(** The two log lines of the dispatcher. *)
Definition received (tool_name : string) : event :=
  EvLog INFO ("Handling request for tool: " ++ tool_name).

Definition caught (e : exn) : event :=
  EvLog ERROR ("Error handling tool request: " ++ str e).

(** The dispatcher as stated for the whole front end: whatever arrives,
    no exception leaves [do_POST] and a JSON body of the uniform shape is
    written. *)
Definition every_post_is_answered : Prop :=
  forall (cfg : config) (self : handler) (net : network) (rq : post_request),
    exists body,
      outcome (do_POST cfg self net rq) = Ok VNone /\
      In (EvWrite body) (trace (do_POST cfg self net rq)) /\
      (uniform_error body \/ success_shape body).

(** The invariant as stated: a request that is processed to a result which
    is not an error names a tool with a translator mapping and with an
    entry in the schema store. *)
Definition accepted_tools_have_mapping_and_schema : Prop :=
  forall (cfg : config) (self : handler) (net : network) (tool_name : string)
         (request_data v : value),
    outcome (handle_tool_request cfg self net tool_name request_data) = Ok v ->
    reports_error v = false ->
    known_tool tool_name = true /\
    dict_get (tool_schemas self) tool_name <> None.




(** A backend that refuses the first connection and answers the second
    probe with 200. *)
Definition ready_on_second_probe : network :=
  fun n _ =>
    match n with
    | O => Raise (mkExn ConnectionError "Connection refused")
    | _ => Ok (mkResponse 200 "OK" (Raise (mkExn JSONDecodeError "Expecting value")))
    end.

(** Registration as stated: the call returns one outcome per schema. *)
Definition register_all_returns_outcomes : Prop :=
  forall (cfg : config) (self : handler) (net : network),
    exists outcomes,
      outcome (register_tools cfg self net) = Ok (VList outcomes) /\
      length outcomes = length (tool_schemas self).

(** A registry that rejects the first registration with 500 and accepts
    the others with 201. *)
Definition first_call_fails : network :=
  fun n _ =>
    match n with
    | O => Ok (mkResponse 500 "Internal Server Error"
                 (Raise (mkExn JSONDecodeError "Expecting value")))
    | _ => Ok (mkResponse 201 "" (Ok (VDict [])))
    end.

(** Shutdown as stated: a process that does not exit in time is reported
    in the log and [shutdown] still returns normally. *)
Definition shutdown_timeout_logged_not_raised : Prop :=
  forall (schemas : dict) (p : process) (e : exn),
    outcome (shutdown (mkHandler schemas (Some p)) (Raise e)) = Ok VNone /\
    exists msg,
      In (EvLog ERROR msg) (trace (shutdown (mkHandler schemas (Some p)) (Raise e))).

(* ===================================================================== *)
(** ** The rest of the handler: output monitor, start-up and [main] *)
(* ===================================================================== *)

(** *** [_monitor_process_output] *)

(** The lines one pipe delivers before [readline] returns [b''], each as
    the outcome of [line.decode().strip()]. *)
Definition pipe : Type := list (result string).

(** [for line in iter(pipe.readline, b''): logger.<lvl>(f"RevitServer: ...")] *)
Fixpoint log_pipe (lvl : level) (lines : pipe) : M unit :=
  match lines with
  | [] => ret tt
  | line :: rest =>
      stripped <- lift line ;;
      log lvl ("RevitServer: " ++ stripped) ;;
      log_pipe lvl rest
  end.

Definition _monitor_process_output (stdout stderr : pipe) : M value :=
  log_pipe INFO stdout ;;
  log_pipe ERROR stderr ;;
  ret VNone.

(** *** Process-level actions *)

(** What [start_revit_server] and [main] do beyond the handler's own
    events. *)
Inductive sys_event : Type :=
| Do (e : event)                          (* an event of a handler method *)
| EvPopen (argv : list string)            (* subprocess.Popen(argv, ...) *)
| EvThreadStart (p : process)             (* Thread(target=_monitor_process_output).start() *)
| EvListen (host : string) (port : Z)     (* HTTPServer((host, port), ...) *)
| EvServeForever                          (* server.serve_forever() *)
| EvServerClose.                          (* server.server_close() *)

Definition P (A : Type) : Type := (list sys_event * result A)%type.

Definition pbind {A B : Type} (m : P A) (k : A -> P B) : P B :=
  match m with
  | (t, Ok a) => let (t', r) := k a in ((t ++ t')%list, r)
  | (t, Raise e) => (t, Raise e)
  end.

(** A handler method run as part of the process. *)
Definition run {A : Type} (m : M A) : P A := (map Do (trace m), outcome m).

Definition pemit (e : sys_event) : P unit := ([e], Ok tt).

Definition plift {A : Type} (r : result A) : P A := ([], r).

Notation "x <~ m ;; k" := (pbind m (fun x => k))
  (at level 100, m at next level, right associativity).

Definition is_do (e : sys_event) : bool :=
  match e with Do _ => true | _ => false end.

(** The handler events of a process trace, in order. *)
Fixpoint handler_events (t : list sys_event) : list event :=
  match t with
  | [] => []
  | Do e :: rest => e :: handler_events rest
  | _ :: rest => handler_events rest
  end.

(** *** [start_revit_server] *)

Definition server_argv : list string := ["dotnet"; "RevitMcpServer.dll"].

(** [popen] is what [subprocess.Popen] gives.  The method assigns
    [self.revit_server_process] before it waits, so the handler it leaves
    behind is returned beside the computation, whether or not the wait
    raises. *)
Definition start_revit_server (cfg : config) (self : handler)
  (popen : result process) (net : network) : handler * P value :=
  match popen with
  | Raise e =>
      (self,
       (_ <~ run (log INFO "Starting Revit MCP Server...") ;;
        _ <~ pemit (EvPopen server_argv) ;;
        plift (Raise e)))
  | Ok p =>
      (mkHandler (tool_schemas self) (Some p),
       (_ <~ run (log INFO "Starting Revit MCP Server...") ;;
        _ <~ pemit (EvPopen server_argv) ;;
        _ <~ pemit (EvThreadStart p) ;;
        run (_wait_for_server_ready cfg net 30 1)))
  end.

(** *** [main] *)

(** [main] is modelled for the exceptions of the model ([Exception] and
    its subclasses) and for a [KeyboardInterrupt] that arrives while the
    server is serving, which is where [main] handles one. *)

(** How [server.serve_forever()] ends. *)
Inductive serve_outcome : Type :=
| Stopped                       (* it returned *)
| Interrupted                   (* KeyboardInterrupt *)
| Failed (e : exn).             (* any other exception *)

(** How [main] ends. *)
Inductive exit : Type :=
| Returned                      (* falls off the end *)
| SystemExit (code : Z)         (* sys.exit(code) *)
| Uncaught (e : exn).           (* an exception leaves main *)

(** Everything outside the process that [main] depends on. *)
Record world : Type := mkWorld {
  schema_dir : result (list dir_entry);   (* the schema directory *)
  popen : result process;                 (* subprocess.Popen *)
  backend : network;                      (* answers to the readiness probes *)
  registry : network;                     (* answers of the MCP registry *)
  listen : result unit;                   (* HTTPServer(('0.0.0.0', TOOL_PORT), ...) *)
  served : list event;                    (* the handler's events while serving *)
  serve_end : serve_outcome;
  process_wait : result Z                 (* Popen.wait(timeout=5) *)
}.

(** The body of the outer [try] of [main], for the handler as
    [start_revit_server] leaves it. *)
Definition main_body (cfg : config) (w : world) (self : handler)
  (started : P value) : P unit :=
  _ <~ started ;;
  _ <~ run (register_tools cfg self (registry w)) ;;
  _ <~ pemit (EvListen "0.0.0.0" (TOOL_PORT cfg)) ;;
  _ <~ plift (listen w) ;;
  _ <~ run (log INFO ("MCP Tool HTTP server started on port "
                      ++ str_int (TOOL_PORT cfg))) ;;
  _ <~ pemit EvServeForever ;;
  _ <~ (map Do (served w), Ok tt) ;;
  _ <~ pemit EvServerClose ;;
  match serve_end w with
  | Stopped | Interrupted => plift (Ok tt)
  | Failed e => plift (Raise e)
  end.

(** [except Exception as e: logger.exception(...); sys.exit(1)]: the
    events so far, and the exit status pending when [finally] is reached. *)
Definition main_guarded (body : P unit) : list sys_event * exit :=
  match body with
  | (t, Ok _) => (t, Returned)
  | (t, Raise e) =>
      ((t ++ [Do (EvLog ERROR ("Fatal error: " ++ str e))])%list, SystemExit 1)
  end.

Definition main (cfg : config) (w : world) : list sys_event * exit :=
  let starting := Do (EvLog INFO "Starting Revit MCP Tool Handler...") in
  match init (schema_dir w) with
  | Raise e => ([starting], Uncaught e)
  | Ok handler0 =>
      let (self, started) :=
        start_revit_server cfg handler0 (popen w) (backend w) in
      let (t, pending) := main_guarded (main_body cfg w self started) in
      let (t', stopped) := run (shutdown self (process_wait w)) in
      ((starting :: t ++ t')%list,
       match stopped with
       | Ok _ => pending
       | Raise e => Uncaught e
       end)
  end.

(* ===================================================================== *)
(** ** Vocabulary of the further properties *)
(* ===================================================================== *)

(** A directory entry [_load_tool_schemas] opens. *)
Definition is_schema_file (entry : dir_entry) : bool :=
  endswith (fst entry) ".json".

(** A directory entry that cannot make the load fail: another kind of
    file, or a schema file that opens and parses. *)
Definition loads (entry : dir_entry) : Prop :=
  is_schema_file entry = true -> exists v, snd entry = Ok v.

(** The schema of the last file of the listing that is stored under
    [tool_name]. *)
Fixpoint last_loaded (entries : list dir_entry) (tool_name : string)
  : option value :=
  match entries with
  | [] => None
  | (filename, content) :: rest =>
      match last_loaded rest tool_name with
      | Some v => Some v
      | None =>
          if endswith filename ".json"
             && (split_first "." filename =? tool_name)
          then match content with Ok v => Some v | Raise _ => None end
          else None
      end
  end.

(** The string contains the character. *)
Definition has_char (c : ascii) (s : string) : bool :=
  existsb (Ascii.eqb c) (list_ascii_of_string s).





(** The [AttributeError] raised by [.get] on a value that is not a dict. *)
Definition no_get (v : value) : exn :=
  mkExn AttributeError ("'" ++ type_name v ++ "' object has no attribute 'get'").

Definition is_dict (v : value) : bool :=
  match v with VDict _ => true | _ => false end.

(** [n] slashes. *)
Fixpoint slashes (n : nat) : string :=
  match n with
  | O => EmptyString
  | S n' => String "/" (slashes n')
  end.

(** The log line the monitor writes for one line of server output. *)
Definition server_line (lvl : level) (stripped : string) : event :=
  EvLog lvl ("RevitServer: " ++ stripped).

(** The two events around serving. *)
Definition is_serving (e : sys_event) : bool :=
  match e with
  | EvServeForever | EvServerClose => true
  | _ => false
  end.

Definition is_listen (e : sys_event) : bool :=
  match e with EvListen _ _ => true | _ => false end.

(** The first [n] readiness probes all fail. *)
Definition never_ready (cfg : config) (net : network) (n : nat) : Prop :=
  forall i, (i < n)%nat -> attempt_fails cfg net i = true.

(* ===================================================================== *)
(** ** The embedding at work *)
(* ===================================================================== *)

Example tool_name_from_path :
  split_last "/" (strip "/" "/tools/revit_element_query") = "revit_element_query"
  /\ split_last "/" (strip "/" "/tools/revit_dynamo_execute/") = "revit_dynamo_execute"
  /\ split_last "/" (strip "/" "/") = "".
Proof. repeat split. Qed.

Example schema_directory_loaded :
  _load_tool_schemas
    (Ok [("revit_element_query.json", Ok (VDict [("name", VStr "Element query")]));
         ("README.md", Raise (mkExn UnicodeDecodeError "invalid start byte"));
         ("revit_dynamo_execute.v2.json", Ok (VDict []));
         ("revit_dynamo_execute.json", Ok (VDict [("version", VStr "2.0.0")]))])
  = Ok [("revit_element_query", VDict [("name", VStr "Element query")]);
        ("revit_dynamo_execute", VDict [("version", VStr "2.0.0")])].
Proof. reflexivity. Qed.

Example element_query_round_trip :
  do_POST default_config (mkHandler [] None)
    (always_ok (VDict [("status", VStr "ok"); ("data", VDict [("count", VInt 3)])]))
    (mkPost (Ok 58%Z)
       (Ok (VDict [("inputs", VDict [("category", VStr "Walls");
                                     ("filter", VStr "Height>10")])]))
       "/tools/revit_element_query" "127.0.0.1"
       "POST /tools/revit_element_query HTTP/1.1")
  = ([EvLog INFO "Handling request for tool: revit_element_query";
      EvHttp (mkCall POST "http://localhost:5000/api/element/mcp"
                (Some (VDict [("action", VStr "getElementsByCategory");
                              ("parameters",
                               VDict [("category", VStr "Walls");
                                      ("filterExpression", VStr "Height>10")])]))
                [("Content-Type", "application/json")]);
      EvLog INFO ("HTTP: 127.0.0.1 - " ++ dquote
                  ++ "POST /tools/revit_element_query HTTP/1.1" ++ dquote
                  ++ " 200 -");
      EvSendResponse 200;
      EvSendHeader "Content-type" "application/json";
      EvEndHeaders;
      EvWrite (VDict [("status", VStr "success");
                      ("result", VDict [("count", VInt 3)])])],
     Ok VNone).
Proof. reflexivity. Qed.

Example wrong_shaped_payload_is_contained :
  handle_tool_request default_config (mkHandler [] None) unreachable
    "revit_dynamo_execute" (VDict [("inputs", VStr "script.dyn")])
  = ([EvLog INFO "Handling request for tool: revit_dynamo_execute";
      EvLog ERROR "Error handling tool request: 'str' object has no attribute 'get'"],
     Ok (VDict [("status", VStr "error");
                ("error", VStr "'str' object has no attribute 'get'")])).
Proof. reflexivity. Qed.

(* ===================================================================== *)
(** ** Properties of the translators *)
(* ===================================================================== *)

Lemma known_tool_false (tool_name : string) :
  known_tool tool_name = false ->
  (tool_name =? "revit_element_query") = false /\
  (tool_name =? "revit_dynamo_execute") = false.
Proof.
  unfold known_tool, known_tools; simpl.
  destruct (tool_name =? "revit_element_query");
    destruct (tool_name =? "revit_dynamo_execute"); simpl; intuition congruence.
Qed.

Lemma known_tool_true (tool_name : string) :
  known_tool tool_name = true ->
  tool_name = "revit_element_query" \/ tool_name = "revit_dynamo_execute".
Proof.
  unfold known_tool, known_tools; simpl.
  destruct (String.eqb_spec tool_name "revit_element_query"); [now left|].
  destruct (String.eqb_spec tool_name "revit_dynamo_execute"); [now right|].
  discriminate.
Qed.

Lemma translate_mcp_to_revit_unknown (tool_name : string) (request : value) :
  known_tool tool_name = false ->
  translate_mcp_to_revit tool_name request
  = Raise (mkExn ValueError ("Unknown tool: " ++ tool_name)).
Proof.
  intros H. apply known_tool_false in H as [H1 H2].
  unfold translate_mcp_to_revit. now rewrite H1, H2.
Qed.

Lemma translate_mcp_to_revit_Ok_known (tool_name : string) (request rq : value) :
  translate_mcp_to_revit tool_name request = Ok rq -> known_tool tool_name = true.
Proof.
  intros H. destruct (known_tool tool_name) eqn:K; [reflexivity|].
  rewrite (translate_mcp_to_revit_unknown _ _ K) in H. discriminate.
Qed.

(** C4. Whatever the tool name, a backend response whose [status] is
    ["error"] is translated to the uniform error result carrying the
    backend's [error] field (["Unknown error"] when the backend sent none),
    and nothing else of the response is read; in particular
    [{status: "error", error: "timeout"}] gives
    [{status: "error", error: "timeout"}] for every tool name. *)
Theorem to_front_error_short_circuit (tool_name : string) (resp : dict) :
  dict_get resp "status" = Some (VStr "error") ->
  translate_revit_to_mcp tool_name (VDict resp)
  = Ok (error_result (dict_get_or resp "error" (VStr "Unknown error")))
  /\ (forall msg, dict_get resp "error" = Some msg ->
        translate_revit_to_mcp tool_name (VDict resp) = Ok (error_result msg))
  /\ translate_revit_to_mcp tool_name
       (VDict [("status", VStr "error"); ("error", VStr "timeout")])
     = Ok (VDict [("status", VStr "error"); ("error", VStr "timeout")]).
Proof.
  intros Hst.
  assert (E : translate_revit_to_mcp tool_name (VDict resp)
              = Ok (error_result (dict_get_or resp "error" (VStr "Unknown error")))).
  { unfold translate_revit_to_mcp, get, dict_get_or; simpl.
    rewrite Hst; reflexivity. }
  split; [exact E|]. split.
  - intros msg Hmsg. rewrite E. unfold dict_get_or. now rewrite Hmsg.
  - reflexivity.
Qed.

Lemma to_front_error_short_circuit_witness :
  dict_get [("data", VInt 1); ("status", VStr "error"); ("error", VStr "disk full")]
    "status" = Some (VStr "error")
  /\
  translate_revit_to_mcp "no_such_tool"
    (VDict [("data", VInt 1); ("status", VStr "error"); ("error", VStr "disk full")])
  = Ok (VDict [("status", VStr "error"); ("error", VStr "disk full")]).
Proof.
  split; [reflexivity|].
  destruct (to_front_error_short_circuit "no_such_tool"
              [("data", VInt 1); ("status", VStr "error");
               ("error", VStr "disk full")] eq_refl) as (H & _).
  exact H.
Defined.

(** C5. The element-query scenario: the request with category ["Walls"]
    and filter ["Height>10"] becomes the [getElementsByCategory] backend
    request, and the backend response [{status: "ok", data: {count: 3}}]
    becomes [{status: "success", result: {count: 3}}]. *)
Theorem element_query_scenario :
  translate_mcp_to_revit "revit_element_query"
    (VDict [("inputs", VDict [("category", VStr "Walls");
                              ("filter", VStr "Height>10")])])
  = Ok (VDict [("action", VStr "getElementsByCategory");
               ("parameters", VDict [("category", VStr "Walls");
                                     ("filterExpression", VStr "Height>10")])])
  /\
  translate_revit_to_mcp "revit_element_query"
    (VDict [("status", VStr "ok"); ("data", VDict [("count", VInt 3)])])
  = Ok (VDict [("status", VStr "success"); ("result", VDict [("count", VInt 3)])]).
Proof. split; reflexivity. Qed.




(* ===================================================================== *)
(** ** Properties of the dispatcher and of the HTTP front end *)
(* ===================================================================== *)

Section Dispatcher.

Variables (cfg : config) (self : handler) (net : network).
Variables (tool_name : string) (request_data : value).

Lemma handle_untranslatable (e : exn) :
  translate_mcp_to_revit tool_name request_data = Raise e ->
  handle_tool_request cfg self net tool_name request_data
  = ([received tool_name; caught e], Ok (error_result (VStr (str e)))).
Proof.
  intros H. unfold handle_tool_request. rewrite H. reflexivity.
Qed.

Lemma handle_translated (rq : value) :
  translate_mcp_to_revit tool_name request_data = Ok rq ->
  handle_tool_request cfg self net tool_name request_data
  = match net 0%nat (backend_call cfg tool_name rq) with
    | Raise e =>
        ([received tool_name; EvHttp (backend_call cfg tool_name rq); caught e],
         Ok (error_result (VStr (str e))))
    | Ok r =>
        if (status_code r =? 200)%Z then
          match rbind (json r) (translate_revit_to_mcp tool_name) with
          | Ok v => ([received tool_name; EvHttp (backend_call cfg tool_name rq)], Ok v)
          | Raise e =>
              ([received tool_name; EvHttp (backend_call cfg tool_name rq); caught e],
               Ok (error_result (VStr (str e))))
          end
        else
          ([received tool_name; EvHttp (backend_call cfg tool_name rq)],
           Ok (error_result
                 (VStr ("Revit MCP Server returned status "
                        ++ str_int (status_code r) ++ ": " ++ text r))))
    end.
Proof.
  intros H.
  pose proof (translate_mcp_to_revit_Ok_known _ _ _ H) as K.
  unfold handle_tool_request. rewrite H.
  unfold backend_call, backend_endpoint.
  apply known_tool_true in K as [-> | ->]; simpl String.eqb; cbv iota;
    unfold requests_call, lift, emit, bind, try_except, log, ret; simpl;
    match goal with |- context [net 0%nat ?c] => destruct (net 0%nat c) as [r|e] end;
    simpl; try reflexivity;
    destruct (status_code r =? 200)%Z; simpl; try reflexivity;
    destruct (json r) as [body|e]; simpl; try reflexivity;
    match goal with
    | |- context [translate_revit_to_mcp ?t body] =>
        destruct (translate_revit_to_mcp t body)
    end; reflexivity.
Qed.

Lemma translate_revit_to_mcp_shape (body v : value) :
  translate_revit_to_mcp tool_name body = Ok v ->
  uniform_error v \/ success_shape v.
Proof.
  unfold translate_revit_to_mcp, get.
  destruct body; simpl; try discriminate.
  destruct (eq_str _ _); simpl.
  - intros [= <-]. left. eexists; reflexivity.
  - destruct (tool_name =? "revit_element_query").
    + intros [= <-]. right. eexists; reflexivity.
    + destruct (tool_name =? "revit_dynamo_execute"); [|discriminate].
      intros [= <-]. right. eexists; reflexivity.
Qed.

Lemma handle_never_raises :
  exists v,
    outcome (handle_tool_request cfg self net tool_name request_data) = Ok v /\
    (uniform_error v \/ success_shape v).
Proof.
  destruct (translate_mcp_to_revit tool_name request_data) as [rq|e] eqn:T.
  - rewrite (handle_translated rq T).
    destruct (net 0%nat _) as [r|e].
    + destruct (status_code r =? 200)%Z.
      * destruct (rbind (json r) (translate_revit_to_mcp tool_name)) as [v|e] eqn:B.
        -- exists v. split; [reflexivity|].
           destruct (json r) as [body|]; simpl in B; [|discriminate].
           exact (translate_revit_to_mcp_shape body v B).
        -- eexists. split; [reflexivity|]. left. eexists; reflexivity.
      * eexists. split; [reflexivity|]. left. eexists; reflexivity.
    + eexists. split; [reflexivity|]. left. eexists; reflexivity.
  - rewrite (handle_untranslatable e T).
    eexists. split; [reflexivity|]. left. eexists; reflexivity.
Qed.

Lemma handle_stage_failure (msg : string) :
  stage_failure cfg net tool_name request_data msg ->
  outcome (handle_tool_request cfg self net tool_name request_data)
  = Ok (error_result (VStr msg)).
Proof.
  intros F. destruct F as [K | e T | rq e T N | rq r T N S | rq r e T N S J
                           | rq r body e T N S J B].
  - rewrite (handle_untranslatable _ (translate_mcp_to_revit_unknown _ _ K)).
    reflexivity.
  - rewrite (handle_untranslatable e T). reflexivity.
  - rewrite (handle_translated rq T), N. reflexivity.
  - rewrite (handle_translated rq T), N.
    apply Z.eqb_neq in S. rewrite S. reflexivity.
  - rewrite (handle_translated rq T), N.
    apply Z.eqb_eq in S. rewrite S, J. reflexivity.
  - rewrite (handle_translated rq T), N.
    apply Z.eqb_eq in S. rewrite S, J. simpl. rewrite B. reflexivity.
Qed.

Lemma handle_unknown :
  known_tool tool_name = false ->
  handle_tool_request cfg self net tool_name request_data
  = ([EvLog INFO ("Handling request for tool: " ++ tool_name);
      EvLog ERROR ("Error handling tool request: Unknown tool: " ++ tool_name)],
     Ok (VDict [("status", VStr "error");
                ("error", VStr ("Unknown tool: " ++ tool_name))])).
Proof.
  intros K.
  rewrite (handle_untranslatable _ (translate_mcp_to_revit_unknown _ _ K)).
  reflexivity.
Qed.

End Dispatcher.

Section FrontEnd.

Variables (cfg : config) (self : handler) (net : network) (rq : post_request).

Lemma do_POST_decoded (cl : Z) (request_data : value) :
  content_length rq = Ok cl ->
  body_json rq = Ok request_data ->
  exists v,
    outcome (handle_tool_request cfg self net
               (split_last "/" (strip "/" (path rq))) request_data) = Ok v /\
    do_POST cfg self net rq
    = ((trace (handle_tool_request cfg self net
               (split_last "/" (strip "/" (path rq))) request_data)
        ++ access_log rq 200 :: reply 200 v)%list, Ok VNone).
Proof.
  intros Hcl Hbody.
  destruct (handle_never_raises cfg self net
               (split_last "/" (strip "/" (path rq))) request_data) as (v & Hv & _).
  exists v. split; [exact Hv|].
  unfold do_POST. rewrite Hcl, Hbody. cbv zeta.
  unfold lift. cbn [bind].
  destruct (handle_tool_request _ _ _ _ _) as [t r].
  simpl in Hv. subst r. reflexivity.
Qed.

Lemma do_POST_undecoded :
  (exists e, content_length rq = Raise e) \/ (exists e, body_json rq = Raise e) ->
  exists e, do_POST cfg self net rq = ([], Raise e).
Proof.
  unfold do_POST.
  intros [[e H] | [e H]].
  - rewrite H. exists e. reflexivity.
  - rewrite H. destruct (content_length rq) as [cl|e'].
    + exists e. reflexivity.
    + exists e'. reflexivity.
Qed.

Lemma handle_trace_no_reply (request_data : value) :
  filter is_reply (trace (handle_tool_request cfg self net
               (split_last "/" (strip "/" (path rq))) request_data)) = [].
Proof.
  destruct (translate_mcp_to_revit (split_last "/" (strip "/" (path rq)))
              request_data) as [q|e] eqn:T.
  - rewrite (handle_translated cfg self net
               (split_last "/" (strip "/" (path rq))) request_data q T).
    destruct (net 0%nat _) as [r|e]; [|reflexivity].
    destruct (status_code r =? 200)%Z; [|reflexivity].
    destruct (rbind _ _); reflexivity.
  - rewrite (handle_untranslatable cfg self net
               (split_last "/" (strip "/" (path rq))) request_data e T).
    reflexivity.
Qed.

Lemma do_POST_replies (cl : Z) (request_data : value) :
  content_length rq = Ok cl ->
  body_json rq = Ok request_data ->
  exists v,
    outcome (handle_tool_request cfg self net
               (split_last "/" (strip "/" (path rq))) request_data) = Ok v /\
    outcome (do_POST cfg self net rq) = Ok VNone /\
    filter is_reply (trace (do_POST cfg self net rq)) = reply 200 v.
Proof.
  intros Hcl Hbody.
  destruct (do_POST_decoded cl request_data Hcl Hbody) as (v & Hv & ->).
  exists v. split; [exact Hv|]. split; [reflexivity|].
  unfold trace at 1. cbn [fst].
  rewrite filter_app, handle_trace_no_reply. reflexivity.
Qed.

End FrontEnd.

(** C3. A request naming a tool outside the known set is answered with
    exactly [{status: "error", error: "Unknown tool: <name>"}]; the
    dispatcher logs the request and the error and makes no outbound call. *)
Theorem unknown_tool_no_backend_call
  (cfg : config) (self : handler) (net : network)
  (tool_name : string) (request_data : value) :
  known_tool tool_name = false ->
  outcome (handle_tool_request cfg self net tool_name request_data)
  = Ok (VDict [("status", VStr "error");
               ("error", VStr ("Unknown tool: " ++ tool_name))])
  /\ http_calls (trace (handle_tool_request cfg self net tool_name request_data)) = []
  /\ trace (handle_tool_request cfg self net tool_name request_data)
     = [EvLog INFO ("Handling request for tool: " ++ tool_name);
        EvLog ERROR ("Error handling tool request: Unknown tool: " ++ tool_name)].
Proof.
  intros K. rewrite (handle_unknown cfg self net tool_name request_data K).
  repeat split.
Qed.

Lemma unknown_tool_no_backend_call_witness :
  known_tool "revit_nonexistent" = false
  /\ outcome (handle_tool_request default_config (mkHandler [] None)
                (always_ok (VDict [])) "revit_nonexistent"
                (VDict [("inputs", VDict [])]))
     = Ok (VDict [("status", VStr "error");
                  ("error", VStr "Unknown tool: revit_nonexistent")])
  /\ http_calls (trace (handle_tool_request default_config (mkHandler [] None)
                          (always_ok (VDict [])) "revit_nonexistent"
                          (VDict [("inputs", VDict [])]))) = [].
Proof.
  split; [reflexivity|].
  destruct (unknown_tool_no_backend_call default_config (mkHandler [] None)
              (always_ok (VDict [])) "revit_nonexistent"
              (VDict [("inputs", VDict [])]) eq_refl) as (H1 & H2 & _).
  split; [exact H1 | exact H2].
Defined.

(** C1, as the code has it. A body that is not JSON makes [json.loads]
    raise inside [do_POST], before the dispatcher is entered: the exception
    leaves [do_POST] and nothing is written to the client. *)
Lemma undecodable_body_escapes :
  do_POST default_config (mkHandler [] None) (always_ok (VDict []))
    (mkPost (Ok 8%Z)
            (Raise (mkExn JSONDecodeError
                      "Expecting value: line 1 column 1 (char 0)"))
            "/tools/revit_element_query" "127.0.0.1"
            "POST /tools/revit_element_query HTTP/1.1")
  = ([], Raise (mkExn JSONDecodeError "Expecting value: line 1 column 1 (char 0)"))
  /\ ~ every_post_is_answered.
Proof.
  split; [reflexivity|].
  intros H.
  destruct (H default_config (mkHandler [] None) (always_ok (VDict []))
              (mkPost (Ok 8%Z)
                 (Raise (mkExn JSONDecodeError
                           "Expecting value: line 1 column 1 (char 0)"))
                 "/tools/revit_element_query" "127.0.0.1"
                 "POST /tools/revit_element_query HTTP/1.1"))
    as (body & Hout & _).
  discriminate Hout.
Qed.

(** C1, amended. For every request whose body has been decoded, the
    dispatcher never raises: its result is the uniform error or a success
    result, and whenever a stage fails -- unknown tool, payload of the
    wrong shape, transport failure, backend status other than 200 (so every
    non-2xx status), undecodable or untranslatable backend response -- it
    is the uniform error carrying that failure's message.  [do_POST] then
    returns normally, and what it sends back is status 200, the JSON
    content type and that result as the body. *)
Theorem dispatcher_contains_failures
  (cfg : config) (self : handler) (net : network)
  (tool_name : string) (request_data : value) :
  (exists v,
      outcome (handle_tool_request cfg self net tool_name request_data) = Ok v /\
      (uniform_error v \/ success_shape v))
  /\
  (forall msg,
      stage_failure cfg net tool_name request_data msg ->
      outcome (handle_tool_request cfg self net tool_name request_data)
      = Ok (VDict [("status", VStr "error"); ("error", VStr msg)]))
  /\
  (forall rq cl,
      content_length rq = Ok cl ->
      body_json rq = Ok request_data ->
      split_last "/" (strip "/" (path rq)) = tool_name ->
      exists v,
        outcome (handle_tool_request cfg self net tool_name request_data) = Ok v /\
        outcome (do_POST cfg self net rq) = Ok VNone /\
        filter is_reply (trace (do_POST cfg self net rq)) = reply 200 v).
Proof.
  split; [apply handle_never_raises|]. split.
  - intros msg F. exact (handle_stage_failure cfg self net _ _ msg F).
  - intros rq cl Hcl Hbody <-. exact (do_POST_replies cfg self net rq cl _ Hcl Hbody).
Qed.

Lemma dispatcher_contains_failures_witness :
  stage_failure default_config (always_status 503) "revit_element_query"
    (VDict [("inputs", VDict [("category", VStr "Walls")])])
    "Revit MCP Server returned status 503: "
  /\
  outcome (handle_tool_request default_config (mkHandler [] None)
             (always_status 503) "revit_element_query"
             (VDict [("inputs", VDict [("category", VStr "Walls")])]))
  = Ok (VDict [("status", VStr "error");
               ("error", VStr "Revit MCP Server returned status 503: ")])
  /\
  exists v,
    outcome (handle_tool_request default_config (mkHandler [] None)
               (always_status 503) "revit_element_query"
               (VDict [("inputs", VDict [("category", VStr "Walls")])])) = Ok v /\
    outcome (do_POST default_config (mkHandler [] None) (always_status 503)
               (mkPost (Ok 33%Z)
                  (Ok (VDict [("inputs", VDict [("category", VStr "Walls")])]))
                  "/tools/revit_element_query" "127.0.0.1"
                  "POST /tools/revit_element_query HTTP/1.1")) = Ok VNone /\
    filter is_reply
      (trace (do_POST default_config (mkHandler [] None) (always_status 503)
                (mkPost (Ok 33%Z)
                   (Ok (VDict [("inputs", VDict [("category", VStr "Walls")])]))
                   "/tools/revit_element_query" "127.0.0.1"
                   "POST /tools/revit_element_query HTTP/1.1")))
    = reply 200 v.
Proof.
  assert (F : stage_failure default_config (always_status 503) "revit_element_query"
                (VDict [("inputs", VDict [("category", VStr "Walls")])])
                "Revit MCP Server returned status 503: ").
  { eapply (backend_status default_config (always_status 503) "revit_element_query"
              (VDict [("inputs", VDict [("category", VStr "Walls")])])
              _ (mkResponse 503 "" (Raise (mkExn JSONDecodeError "Expecting value")))).
    - reflexivity.
    - reflexivity.
    - discriminate. }
  split; [exact F|].
  destruct (dispatcher_contains_failures default_config (mkHandler [] None)
              (always_status 503) "revit_element_query"
              (VDict [("inputs", VDict [("category", VStr "Walls")])]))
    as (_ & H & P).
  split; [exact (H _ F)|].
  exact (P (mkPost (Ok 33%Z)
              (Ok (VDict [("inputs", VDict [("category", VStr "Walls")])]))
              "/tools/revit_element_query" "127.0.0.1"
              "POST /tools/revit_element_query HTTP/1.1")
           33%Z eq_refl eq_refl eq_refl).
Defined.

(** C2, as the code has it. With an empty schema store the dispatcher
    still serves [revit_element_query]: it never looks a tool name up in
    [tool_schemas]. *)
Lemma served_without_schema :
  init (Ok []) = Ok (mkHandler [] None)
  /\ outcome (handle_tool_request default_config (mkHandler [] None)
                (always_ok (VDict [("status", VStr "ok");
                                   ("data", VDict [("count", VInt 3)])]))
                "revit_element_query"
                (VDict [("inputs", VDict [("category", VStr "Walls")])]))
     = Ok (VDict [("status", VStr "success");
                  ("result", VDict [("count", VInt 3)])])
  /\ dict_get (tool_schemas (mkHandler [] None)) "revit_element_query" = None
  /\ ~ accepted_tools_have_mapping_and_schema.
Proof.
  split; [reflexivity|]. split; [reflexivity|]. split; [reflexivity|].
  intros H.
  destruct (H default_config (mkHandler [] None)
              (always_ok (VDict [("status", VStr "ok");
                                 ("data", VDict [("count", VInt 3)])]))
              "revit_element_query"
              (VDict [("inputs", VDict [("category", VStr "Walls")])])
              _ eq_refl eq_refl) as [_ Hschema].
  apply Hschema. reflexivity.
Qed.

(** C2, amended. Every tool name the dispatcher processes to a result that
    is not an error has a translator mapping (it is one of the two known
    names); a tool name without a mapping always gets the
    ["Unknown tool: <name>"] error and no backend call.  The schema store
    plays no part: the result is the same for every content of
    [tool_schemas]. *)
Theorem accepted_tools_have_mapping
  (cfg : config) (self : handler) (net : network)
  (tool_name : string) (request_data : value) :
  (forall v,
      outcome (handle_tool_request cfg self net tool_name request_data) = Ok v ->
      reports_error v = false ->
      known_tool tool_name = true)
  /\
  (known_tool tool_name = false ->
   outcome (handle_tool_request cfg self net tool_name request_data)
   = Ok (VDict [("status", VStr "error");
                ("error", VStr ("Unknown tool: " ++ tool_name))])
   /\ http_calls (trace (handle_tool_request cfg self net tool_name request_data))
      = [])
  /\
  (forall other : handler,
      handle_tool_request cfg other net tool_name request_data
      = handle_tool_request cfg self net tool_name request_data).
Proof.
  split; [|split].
  - intros v Hv Hok.
    destruct (known_tool tool_name) eqn:K; [reflexivity|].
    rewrite (handle_unknown cfg self net tool_name request_data K) in Hv.
    simpl in Hv. injection Hv as <-. discriminate Hok.
  - intros K. rewrite (handle_unknown cfg self net tool_name request_data K).
    split; reflexivity.
  - intros other. reflexivity.
Qed.

Lemma accepted_tools_have_mapping_witness :
  known_tool "revit_wall_create" = false
  /\ outcome (handle_tool_request default_config
                (mkHandler [("revit_wall_create", VDict [])] None)
                (always_ok (VDict [])) "revit_wall_create" (VDict []))
     = Ok (VDict [("status", VStr "error");
                  ("error", VStr "Unknown tool: revit_wall_create")]).
Proof.
  split; [reflexivity|].
  destruct (accepted_tools_have_mapping default_config
              (mkHandler [("revit_wall_create", VDict [])] None)
              (always_ok (VDict [])) "revit_wall_create" (VDict []))
    as (_ & H & _).
  destruct (H eq_refl) as [H1 _]. exact H1.
Defined.

(** C10. Whenever [do_POST] gets as far as answering, it answers with
    transport status 200 and the dispatcher's result as the body, error
    result or not; when the request cannot be decoded it sends nothing.
    No other status code is ever sent. *)
Theorem post_always_replies_200
  (cfg : config) (self : handler) (net : network) (rq : post_request) :
  match content_length rq, body_json rq with
  | Ok _, Ok request_data =>
      exists v,
        outcome (handle_tool_request cfg self net
                   (split_last "/" (strip "/" (path rq))) request_data) = Ok v /\
        filter is_reply (trace (do_POST cfg self net rq)) = reply 200 v
  | _, _ => filter is_reply (trace (do_POST cfg self net rq)) = []
  end.
Proof.
  destruct (content_length rq) as [cl|e] eqn:Hcl.
  - destruct (body_json rq) as [request_data|e] eqn:Hbody.
    + destruct (do_POST_decoded cfg self net rq cl request_data Hcl Hbody)
        as (v & Hv & Hpost).
      exists v. split; [exact Hv|].
      rewrite Hpost. unfold trace at 1. simpl fst.
      rewrite filter_app, handle_trace_no_reply. reflexivity.
    + destruct (do_POST_undecoded cfg self net rq) as [e' ->]; [|reflexivity].
      right. now exists e.
  - destruct (do_POST_undecoded cfg self net rq) as [e' ->]; [|reflexivity].
    left. now exists e.
Qed.

(* ===================================================================== *)
(** ** Properties of the readiness wait *)
(* ===================================================================== *)

Section Readiness.

Variables (cfg : config) (net : network) (retry_interval : Z).

Hypothesis interval_ok : (0 <= retry_interval)%Z.

Lemma sleep_accepted : sleep retry_interval = emit (EvSleep retry_interval).
Proof.
  unfold sleep. destruct (Z.ltb_spec retry_interval 0); [lia | reflexivity].
Qed.

Lemma wait_loop_step_fail (n remaining : nat) :
  attempt_fails cfg net n = true ->
  wait_loop cfg net retry_interval n (S remaining)
  = (EvHttp (status_call cfg) :: EvSleep retry_interval
       :: trace (wait_loop cfg net retry_interval (S n) remaining),
     outcome (wait_loop cfg net retry_interval (S n) remaining)).
Proof.
  unfold attempt_fails. intros H. cbn [wait_loop]. rewrite sleep_accepted.
  unfold requests_call, emit, lift, log. cbn [bind].
  destruct (net n (status_call cfg)) as [r|e].
  - apply negb_true_iff in H. rewrite H. cbn.
    destruct (wait_loop cfg net retry_interval (S n) remaining). reflexivity.
  - cbn. rewrite H. cbn.
    destruct (wait_loop cfg net retry_interval (S n) remaining). reflexivity.
Qed.

Lemma wait_loop_step_ready (n remaining : nat) (r : response) :
  net n (status_call cfg) = Ok r ->
  status_code r = 200%Z ->
  wait_loop cfg net retry_interval n (S remaining)
  = ([EvHttp (status_call cfg); EvLog INFO "Revit MCP Server is ready"],
     Ok (Some VNone)).
Proof.
  intros H S. cbn [wait_loop].
  unfold requests_call, emit, lift, log. cbn [bind].
  rewrite H, S. reflexivity.
Qed.

Lemma wait_loop_step_raise (n remaining : nat) (e : exn) :
  net n (status_call cfg) = Raise e ->
  is_ConnectionError e = false ->
  wait_loop cfg net retry_interval n (S remaining)
  = ([EvHttp (status_call cfg)], Raise e).
Proof.
  intros H C. cbn [wait_loop].
  unfold requests_call, emit, lift, log. cbn [bind].
  rewrite H. cbn. rewrite C. reflexivity.
Qed.

(** Every attempt either fails, or is answered with 200, or raises
    something other than a [ConnectionError]. *)
Lemma attempt_cases (n : nat) :
  attempt_fails cfg net n = true
  \/ (exists r, net n (status_call cfg) = Ok r /\ status_code r = 200%Z)
  \/ (exists e, net n (status_call cfg) = Raise e /\ is_ConnectionError e = false).
Proof.
  unfold attempt_fails.
  destruct (net n (status_call cfg)) as [r|e].
  - destruct (Z.eqb_spec (status_code r) 200).
    + right. left. now exists r.
    + now left.
  - destruct (is_ConnectionError e) eqn:C.
    + now left.
    + right. right. now exists e.
Qed.

Lemma wait_loop_all_fail (remaining n : nat) :
  (forall i, (n <= i < n + remaining)%nat -> attempt_fails cfg net i = true) ->
  wait_loop cfg net retry_interval n remaining
  = (failed_attempts cfg retry_interval remaining, Ok None).
Proof.
  revert n. induction remaining as [|rem IH]; intros n H.
  - reflexivity.
  - rewrite wait_loop_step_fail by (apply H; lia).
    rewrite IH by (intros i Hi; apply H; lia).
    reflexivity.
Qed.

Lemma wait_loop_ready_at (k n remaining : nat) (r : response) :
  (k < remaining)%nat ->
  (forall i, (n <= i < n + k)%nat -> attempt_fails cfg net i = true) ->
  net (n + k)%nat (status_call cfg) = Ok r ->
  status_code r = 200%Z ->
  wait_loop cfg net retry_interval n remaining
  = ((failed_attempts cfg retry_interval k
      ++ [EvHttp (status_call cfg); EvLog INFO "Revit MCP Server is ready"])%list,
     Ok (Some VNone)).
Proof.
  revert n remaining. induction k as [|k IH]; intros n remaining Hk Hfail Hr Hs.
  - destruct remaining as [|rem]; [lia|].
    rewrite Nat.add_0_r in Hr.
    exact (wait_loop_step_ready n rem r Hr Hs).
  - destruct remaining as [|rem]; [lia|].
    rewrite wait_loop_step_fail by (apply Hfail; lia).
    rewrite (IH (S n) rem) by
      (try lia; try (intros i Hi; apply Hfail; lia);
       try (replace (S n + k)%nat with (n + S k)%nat by lia; assumption);
       assumption).
    reflexivity.
Qed.


Lemma wait_loop_calls_bounded (remaining n : nat) :
  (length (http_calls (trace (wait_loop cfg net retry_interval n remaining)))
   <= remaining)%nat.
Proof.
  revert n. induction remaining as [|rem IH]; intros n.
  - simpl. lia.
  - destruct (attempt_cases n) as [F | [(r & Hr & Hs) | (e & He & Hc)]].
    + rewrite (wait_loop_step_fail n rem F). unfold trace at 1. simpl.
      specialize (IH (S n)). lia.
    + rewrite (wait_loop_step_ready n rem r Hr Hs). simpl. lia.
    + rewrite (wait_loop_step_raise n rem e He Hc). simpl. lia.
Qed.

End Readiness.






(* ===================================================================== *)
(** ** Properties of the registry client *)
(* ===================================================================== *)

Section Registry.

Variables (cfg : config) (net : network).

Lemma registration_data_dict (tool_name : string) (d : dict) :
  exists data, registration_data cfg tool_name (VDict d) = Ok data.
Proof.
  eexists. reflexivity.
Qed.

Lemma register_one_events (n : nat) (tool_name : string) (schema data : value) :
  registration_data cfg tool_name schema = Ok data ->
  exists msg,
    register_one cfg net n tool_name schema
    = ([EvHttp (registry_call cfg data);
        EvLog (outcome_level net n (registry_call cfg data)) msg], Ok tt).
Proof.
  intros D. unfold register_one. rewrite D.
  unfold outcome_level, registered, requests_call, emit, lift, log.
  cbn [bind try_except].
  destruct (net n (registry_call cfg data)) as [r|e]; cbn.
  - destruct ((status_code r =? 200)%Z || (status_code r =? 201)%Z);
      eexists; reflexivity.
  - eexists; reflexivity.
Qed.

Lemma register_loop_events (items : dict) (n : nat) :
  Forall is_schema_dict items ->
  exists evs,
    register_loop cfg net n items = (evs, Ok tt) /\
    registration_events cfg net n items evs.
Proof.
  intros H. revert n. induction H as [|[tool_name schema] rest [d Hd] _ IH]; intros n.
  - exists []. split; [reflexivity | constructor].
  - simpl in Hd. subst schema.
    destruct (registration_data_dict tool_name d) as [data D].
    destruct (register_one_events n tool_name (VDict d) data D) as [msg E].
    destruct (IH (S n)) as (evs & L & R).
    exists (EvHttp (registry_call cfg data)
            :: EvLog (outcome_level net n (registry_call cfg data)) msg :: evs).
    split.
    + cbn [register_loop]. rewrite E. cbn [bind]. rewrite L. reflexivity.
    + econstructor; eassumption.
Qed.

Lemma registration_events_counts (n : nat) (items : dict) (evs : list event) :
  registration_events cfg net n items evs ->
  length (http_calls evs) = length items /\
  length (filter is_log evs) = length items.
Proof.
  induction 1 as [|n tool_name schema data msg rest evs D _ [IH1 IH2]].
  - split; reflexivity.
  - unfold http_calls in *. simpl. split; [now rewrite IH1 | now rewrite IH2].
Qed.

End Registry.

(** C7, as the code has it. [register_tools] returns [None], not a list
    of outcomes; the outcome of each call is only logged. *)
Lemma register_tools_returns_none :
  register_tools default_config
    (mkHandler [("revit_element_query", VDict [])] None) (always_status 500)
  = ([EvLog INFO "Registering tools with MCP registry at http://localhost:8081...";
      EvHttp (registry_call default_config
                (VDict [("id", VStr "revit.revit_element_query");
                        ("name", VStr "revit_element_query");
                        ("description", VStr "");
                        ("version", VStr "1.0.0");
                        ("input_schema", VDict []);
                        ("output_schema", VDict []);
                        ("endpoint",
                         VStr "http://revit-mcp-tool:8082/tools/revit_element_query")]));
      EvLog ERROR "Failed to register tool revit.revit_element_query: 500 - "],
     Ok VNone)
  /\ ~ register_all_returns_outcomes.
Proof.
  split; [reflexivity|].
  intros H.
  destruct (H default_config (mkHandler [("revit_element_query", VDict [])] None)
              (always_status 500)) as (outcomes & E & _).
  discriminate E.
Qed.

(** C7, amended. For every collection of N schemas (each a JSON object),
    [register_tools] makes exactly one registration call per schema, in
    order, each followed by exactly one log line for that tool -- at level
    INFO when the registry answered 200 or 201, at level ERROR when it
    answered anything else or the call raised -- and a failed call does not
    stop the calls for the remaining schemas.  It returns [None]. *)
Theorem register_tools_isolates_failures
  (cfg : config) (self : handler) (net : network) :
  Forall is_schema_dict (tool_schemas self) ->
  exists evs,
    register_tools cfg self net
    = (EvLog INFO ("Registering tools with MCP registry at "
                   ++ REGISTRY_URL cfg ++ "...") :: evs,
       Ok VNone)
    /\ registration_events cfg net 0 (tool_schemas self) evs
    /\ length (http_calls evs) = length (tool_schemas self)
    /\ length (filter is_log evs) = length (tool_schemas self).
Proof.
  intros H.
  destruct (register_loop_events cfg net (tool_schemas self) 0 H) as (evs & L & R).
  exists evs. split; [|split; [exact R|]].
  - unfold register_tools, log, emit. cbn [bind]. rewrite L. cbn.
    rewrite app_nil_r. reflexivity.
  - exact (registration_events_counts cfg net 0 _ evs R).
Qed.

Lemma register_tools_isolates_failures_witness :
  Forall is_schema_dict
    [("revit_element_query", VDict []);
     ("revit_dynamo_execute", VDict [("name", VStr "Dynamo")])]
  /\
  exists evs,
    register_tools default_config
      (mkHandler [("revit_element_query", VDict []);
                  ("revit_dynamo_execute", VDict [("name", VStr "Dynamo")])] None)
      first_call_fails
    = (EvLog INFO "Registering tools with MCP registry at http://localhost:8081..."
         :: evs, Ok VNone)
    /\ length (http_calls evs) = 2%nat.
Proof.
  assert (F : Forall is_schema_dict
                [("revit_element_query", VDict []);
                 ("revit_dynamo_execute", VDict [("name", VStr "Dynamo")])]).
  { repeat constructor; eexists; reflexivity. }
  split; [exact F|].
  destruct (register_tools_isolates_failures default_config
              (mkHandler [("revit_element_query", VDict []);
                          ("revit_dynamo_execute", VDict [("name", VStr "Dynamo")])]
                 None)
              first_call_fails F) as (evs & E & _ & C & _).
  exists evs. split; [exact E | exact C].
Defined.

(* ===================================================================== *)
(** ** Properties of shutdown *)
(* ===================================================================== *)

(** C8, as the code has it. When the process has not exited after five
    seconds, [TimeoutExpired] leaves [shutdown]; nothing is logged about
    it, not even the closing line. *)
Lemma shutdown_timeout_escapes :
  shutdown (mkHandler [] (Some (mkProcess 4242)))
    (Raise (mkExn TimeoutExpired
              "Command '['dotnet', 'RevitMcpServer.dll']' timed out after 5 seconds"))
  = ([EvLog INFO "Stopping Revit MCP Server...";
      EvTerminate (mkProcess 4242);
      EvWait (mkProcess 4242) 5],
     Raise (mkExn TimeoutExpired
              "Command '['dotnet', 'RevitMcpServer.dll']' timed out after 5 seconds"))
  /\ ~ shutdown_timeout_logged_not_raised.
Proof.
  split; [reflexivity|].
  intros H.
  destruct (H [] (mkProcess 4242)
              (mkExn TimeoutExpired
                 "Command '['dotnet', 'RevitMcpServer.dll']' timed out after 5 seconds"))
    as [E _].
  discriminate E.
Qed.

(** C8, amended. [shutdown] sends the termination signal and then waits
    for the process with a timeout of five seconds, so the wait is
    bounded.  When the process exits in time the closing line is logged
    and [shutdown] returns; when it does not, the [TimeoutExpired] raised
    by the wait is passed on to the caller of [shutdown] as it is, without
    a log line.  Without a process there is nothing to stop. *)
Theorem shutdown_terminates_then_waits_bounded
  (schemas : dict) (p : process) (wait_result : result Z) :
  shutdown (mkHandler schemas (Some p)) wait_result
  = match wait_result with
    | Ok _ =>
        ([EvLog INFO "Stopping Revit MCP Server...";
          EvTerminate p; EvWait p 5;
          EvLog INFO "Revit MCP Tool Handler shutdown complete"], Ok VNone)
    | Raise e =>
        ([EvLog INFO "Stopping Revit MCP Server...";
          EvTerminate p; EvWait p 5], Raise e)
    end
  /\ shutdown (mkHandler schemas None) wait_result
     = ([EvLog INFO "Revit MCP Tool Handler shutdown complete"], Ok VNone).
Proof.
  split; [|reflexivity].
  destruct wait_result; reflexivity.
Qed.

(* ===================================================================== *)
(** ** Further properties: the schema store *)
(* ===================================================================== *)

Lemma dict_get_set (d : dict) (k t : string) (v : value) :
  dict_get (dict_set d k v) t = if k =? t then Some v else dict_get d t.
Proof.
  induction d as [|[k' w] rest IH]; simpl.
  - destruct (k =? t); reflexivity.
  - destruct (String.eqb_spec k' k) as [->|N]; simpl.
    + destruct (k =? t); reflexivity.
    + rewrite IH. destruct (String.eqb_spec k t) as [<-|]; [|reflexivity].
      apply String.eqb_neq in N. now rewrite N.
Qed.

Lemma dict_set_keys (d : dict) (k t : string) (v : value) :
  In t (map fst (dict_set d k v)) <-> t = k \/ In t (map fst d).
Proof.
  induction d as [|[k' w] rest IH]; simpl.
  - intuition.
  - destruct (String.eqb_spec k' k) as [->|N]; simpl.
    + intuition.
    + rewrite IH. intuition.
Qed.

Lemma dict_set_NoDup (d : dict) (k : string) (v : value) :
  NoDup (map fst d) -> NoDup (map fst (dict_set d k v)).
Proof.
  induction d as [|[k' w] rest IH]; simpl; intros H.
  - constructor; [intros [] | constructor].
  - inversion H as [|? ? Hnot Hrest]; subst.
    destruct (String.eqb_spec k' k) as [->|N]; simpl.
    + constructor; assumption.
    + constructor; [|now apply IH].
      rewrite dict_set_keys. intros [E|I]; [now apply N | now apply Hnot].
Qed.

Lemma split_first_no_sep (c : ascii) (s : string) :
  has_char c (split_first c s) = false.
Proof.
  unfold has_char.
  induction s as [|a rest IH]; simpl; [reflexivity|].
  destruct (Ascii.eqb_spec a c) as [->|N]; simpl; [reflexivity|].
  rewrite IH.
  destruct (Ascii.eqb_spec c a) as [->|]; [now elim N | reflexivity].
Qed.

Lemma load_entries_filter (entries : list dir_entry) (schemas : dict) :
  load_entries entries schemas
  = load_entries (filter is_schema_file entries) schemas.
Proof.
  revert schemas.
  induction entries as [|[filename content] rest IH]; intros schemas; simpl.
  - reflexivity.
  - unfold is_schema_file at 1; simpl.
    destruct (endswith filename ".json") eqn:E; simpl.
    + rewrite E. destruct content; simpl; [apply IH | reflexivity].
    + apply IH.
Qed.

Lemma load_entries_all_load (entries : list dir_entry) (schemas : dict) :
  Forall loads entries -> exists d, load_entries entries schemas = Ok d.
Proof.
  intros H. revert schemas.
  induction H as [|[filename content] rest L _ IH]; intros schemas; simpl.
  - now exists schemas.
  - destruct (endswith filename ".json") eqn:E; [|apply IH].
    destruct (L E) as [v Hv]. simpl in Hv. subst content. simpl. apply IH.
Qed.

Lemma load_entries_first_failure (good rest : list dir_entry) (filename : string)
  (e : exn) (schemas : dict) :
  Forall loads good ->
  endswith filename ".json" = true ->
  load_entries (good ++ (filename, Raise e) :: rest) schemas = Raise e.
Proof.
  intros H E. revert schemas.
  induction H as [|[f c] good' L _ IH]; intros schemas; simpl.
  - rewrite E. reflexivity.
  - destruct (endswith f ".json") eqn:Ef; [|apply IH].
    destruct (L Ef) as [v Hv]. simpl in Hv. subst c. simpl. apply IH.
Qed.

Lemma load_entries_NoDup (entries : list dir_entry) (schemas d : dict) :
  NoDup (map fst schemas) ->
  load_entries entries schemas = Ok d ->
  NoDup (map fst d).
Proof.
  revert schemas.
  induction entries as [|[filename content] rest IH]; intros schemas N; simpl.
  - now intros [= <-].
  - destruct (endswith filename ".json"); [|now apply IH].
    destruct content as [v|e]; simpl; [|discriminate].
    apply IH. now apply dict_set_NoDup.
Qed.

Lemma load_entries_lookup (entries : list dir_entry) (schemas d : dict)
  (tool_name : string) :
  load_entries entries schemas = Ok d ->
  dict_get d tool_name
  = match last_loaded entries tool_name with
    | Some v => Some v
    | None => dict_get schemas tool_name
    end.
Proof.
  revert schemas.
  induction entries as [|[filename content] rest IH]; intros schemas; simpl.
  - now intros [= <-].
  - destruct (endswith filename ".json") eqn:E; simpl.
    + destruct content as [v|e]; simpl; [|discriminate].
      intros H. rewrite (IH _ H).
      destruct (last_loaded rest tool_name); [reflexivity|].
      rewrite dict_get_set. destruct (split_first "." filename =? tool_name);
        reflexivity.
    + intros H. rewrite (IH _ H).
      destruct (last_loaded rest tool_name); reflexivity.
Qed.

Lemma load_entries_names (entries : list dir_entry) (schemas d : dict)
  (tool_name : string) :
  load_entries entries schemas = Ok d ->
  In tool_name (map fst d) ->
  In tool_name (map fst schemas)
  \/ exists filename content,
       In (filename, content) entries
       /\ endswith filename ".json" = true
       /\ tool_name = split_first "." filename.
Proof.
  revert schemas.
  induction entries as [|[filename content] rest IH]; intros schemas; simpl.
  - intros [= <-] I. now left.
  - destruct (endswith filename ".json") eqn:E.
    + destruct content as [v|e]; simpl; [|discriminate].
      intros H I. destruct (IH _ H I) as [K | (f & c & Hin & Hf & Ht)].
      * apply dict_set_keys in K as [-> | K]; [|now left].
        right. exists filename, (Ok v). auto.
      * right. exists f, c. auto.
    + intros H I. destruct (IH _ H I) as [K | (f & c & Hin & Hf & Ht)].
      * now left.
      * right. exists f, c. auto.
Qed.

(** X1. Loading the schemas looks only at the entries whose name ends in
    [.json]: the other entries of the directory, readable or not, change
    nothing. *)
Theorem load_ignores_other_files (entries : list dir_entry) :
  _load_tool_schemas (Ok entries)
  = _load_tool_schemas (Ok (filter is_schema_file entries)).
Proof.
  unfold _load_tool_schemas. simpl. apply load_entries_filter.
Qed.

(** X2. Loading is all or nothing: it succeeds when every [.json] file
    opens and parses, and otherwise raises the exception of the first
    [.json] file that does not, without a partial store. *)
Theorem load_all_or_nothing (entries : list dir_entry) :
  (Forall loads entries -> exists d, _load_tool_schemas (Ok entries) = Ok d)
  /\
  (forall good filename e rest,
      entries = (good ++ (filename, Raise e) :: rest)%list ->
      Forall loads good ->
      endswith filename ".json" = true ->
      _load_tool_schemas (Ok entries) = Raise e).
Proof.
  split.
  - intros H. unfold _load_tool_schemas. simpl. now apply load_entries_all_load.
  - intros good filename e rest -> H E.
    unfold _load_tool_schemas. simpl. now apply load_entries_first_failure.
Qed.

Lemma load_all_or_nothing_witness :
  _load_tool_schemas
    (Ok [("notes.txt", Raise (mkExn OSError "Permission denied"));
         ("revit_element_query.json", Ok (VDict []));
         ("broken.json", Raise (mkExn JSONDecodeError "Expecting value"));
         ("revit_dynamo_execute.json", Ok (VDict []))])
  = Raise (mkExn JSONDecodeError "Expecting value")
  /\ exists d,
       _load_tool_schemas
         (Ok [("notes.txt", Raise (mkExn OSError "Permission denied"));
              ("revit_element_query.json", Ok (VDict []))]) = Ok d.
Proof.
  split.
  - refine (proj2 (load_all_or_nothing _)
              [("notes.txt", Raise (mkExn OSError "Permission denied"));
               ("revit_element_query.json", Ok (VDict []))]
              "broken.json" (mkExn JSONDecodeError "Expecting value")
              [("revit_dynamo_execute.json", Ok (VDict []))] eq_refl _ eq_refl).
    repeat constructor.
    + intros H. discriminate H.
    + intros _. eexists. reflexivity.
  - apply (proj1 (load_all_or_nothing _)).
    repeat constructor.
    + intros H. discriminate H.
    + intros _. eexists. reflexivity.
Defined.

(** X3. The loaded store binds every tool name once. *)
Theorem loaded_names_unique (listdir : result (list dir_entry)) (d : dict) :
  _load_tool_schemas listdir = Ok d -> NoDup (map fst d).
Proof.
  unfold _load_tool_schemas. destruct listdir as [entries|e]; simpl; [|discriminate].
  apply load_entries_NoDup. constructor.
Qed.

Lemma loaded_names_unique_witness :
  NoDup (map fst [("revit_element_query", VInt 2)]).
Proof.
  apply (loaded_names_unique
           (Ok [("revit_element_query.json", Ok (VInt 1));
                ("revit_element_query.v2.json", Ok (VInt 2))])).
  reflexivity.
Defined.

(** X4. Looking a tool name up in the loaded store gives the schema of
    the last [.json] file of the listing whose name up to its first dot is
    that tool name, and nothing when there is no such file: a later file
    replaces an earlier one of the same stem. *)
Theorem loaded_lookup_is_last_file (entries : list dir_entry) (d : dict)
  (tool_name : string) :
  _load_tool_schemas (Ok entries) = Ok d ->
  dict_get d tool_name = last_loaded entries tool_name.
Proof.
  unfold _load_tool_schemas. simpl. intros H.
  rewrite (load_entries_lookup entries [] d tool_name H).
  destruct (last_loaded entries tool_name); reflexivity.
Qed.

Lemma loaded_lookup_is_last_file_witness :
  dict_get [("revit_element_query", VInt 2)] "revit_element_query" = Some (VInt 2).
Proof.
  apply (loaded_lookup_is_last_file
           [("revit_element_query.json", Ok (VInt 1));
            ("revit_element_query.v2.json", Ok (VInt 2))]
           [("revit_element_query", VInt 2)] "revit_element_query").
  reflexivity.
Defined.

(** X5. Every tool name of the loaded store is the part before the first
    dot of the name of some [.json] file of the directory, so no tool name
    contains a dot. *)
Theorem loaded_names_are_stems (entries : list dir_entry) (d : dict)
  (tool_name : string) :
  _load_tool_schemas (Ok entries) = Ok d ->
  In tool_name (map fst d) ->
  (exists filename content,
      In (filename, content) entries
      /\ endswith filename ".json" = true
      /\ tool_name = split_first "." filename)
  /\ has_char "." tool_name = false.
Proof.
  unfold _load_tool_schemas. simpl. intros H I.
  destruct (load_entries_names entries [] d tool_name H I)
    as [[] | (f & c & Hin & Hf & Ht)].
  split.
  - exists f, c. auto.
  - subst tool_name. apply split_first_no_sep.
Qed.

Lemma loaded_names_are_stems_witness :
  has_char "." "revit_element_query" = false.
Proof.
  refine (proj2 (loaded_names_are_stems
                   [("revit_element_query.v2.json", Ok (VInt 2))]
                   [("revit_element_query", VInt 2)] "revit_element_query"
                   eq_refl _)).
  simpl. left. reflexivity.
Defined.

(* ===================================================================== *)
(** ** Further properties: the readiness wait *)
(* ===================================================================== *)





(** X6. With an attempt budget of zero or less the wait makes no probe
    and does not sleep: it logs that the server is not ready and raises
    the readiness error at once. *)
Theorem wait_without_budget
  (cfg : config) (net : network) (max_retries retry_interval : Z) :
  (max_retries <= 0)%Z ->
  _wait_for_server_ready cfg net max_retries retry_interval
  = ([EvLog INFO ("Waiting for Revit MCP Server at http://" ++ REVIT_HOST cfg
                  ++ ":" ++ str_int (REVIT_PORT cfg) ++ "...");
      EvLog ERROR ("Revit MCP Server not ready after "
                   ++ str_int (max_retries * retry_interval) ++ " seconds")],
     Raise (mkExn RuntimeError "Failed to connect to Revit MCP Server")).
Proof.
  intros H. unfold _wait_for_server_ready.
  replace (Z.to_nat max_retries) with 0%nat by lia. reflexivity.
Qed.

Lemma wait_without_budget_witness :
  (0 <= 0)%Z
  /\ _wait_for_server_ready default_config (always_ok VNone) 0 1
     = ([EvLog INFO "Waiting for Revit MCP Server at http://localhost:5000...";
         EvLog ERROR "Revit MCP Server not ready after 0 seconds"],
        Raise (mkExn RuntimeError "Failed to connect to Revit MCP Server")).
Proof.
  split; [lia|].
  apply (wait_without_budget default_config (always_ok VNone) 0 1). lia.
Defined.





(* ===================================================================== *)
(** ** Further properties: the registry client *)
(* ===================================================================== *)

Lemma registration_data_not_dict (cfg : config) (tool_name : string)
  (schema : value) :
  is_dict schema = false ->
  registration_data cfg tool_name schema = Raise (no_get schema).
Proof.
  destruct schema; simpl; intros H; try reflexivity; discriminate.
Qed.




Lemma register_loop_abort (cfg : config) (net : network) (good rest : dict)
  (tool_name : string) (schema : value) (n : nat) :
  Forall is_schema_dict good ->
  is_dict schema = false ->
  outcome (register_loop cfg net n (good ++ (tool_name, schema) :: rest)%list)
  = Raise (no_get schema)
  /\ length (http_calls
               (trace (register_loop cfg net n
                         (good ++ (tool_name, schema) :: rest)%list)))
     = length good.
Proof.
  intros H D. revert n.
  induction H as [|[t sch] good' [d Hd] _ IH]; intros n.
  - cbn [app register_loop]. unfold register_one.
    rewrite (registration_data_not_dict cfg tool_name schema D).
    split; reflexivity.
  - simpl in Hd. subst sch. cbn [app register_loop].
    destruct (registration_data_dict cfg t d) as [data Dd].
    destruct (register_one_events cfg net n t (VDict d) data Dd) as [msg E].
    rewrite E. cbn [bind].
    destruct (IH (S n)) as [IH1 IH2].
    destruct (register_loop cfg net (S n) (good' ++ (tool_name, schema) :: rest)%list)
      as [t' r']. unfold outcome, trace, http_calls in *. simpl in *.
    split; [exact IH1 | now rewrite IH2].
Qed.

(** X9. A schema that is not a JSON object stops the registration pass at
    that tool: the tools before it have had their call, no call is made
    for it or for any tool after it, and the [AttributeError] of the
    failed [.get] leaves [register_tools]. *)
Theorem register_tools_aborts_on_non_object
  (cfg : config) (self : handler) (net : network)
  (good rest : dict) (tool_name : string) (schema : value) :
  tool_schemas self = (good ++ (tool_name, schema) :: rest)%list ->
  Forall is_schema_dict good ->
  is_dict schema = false ->
  outcome (register_tools cfg self net) = Raise (no_get schema)
  /\ length (http_calls (trace (register_tools cfg self net))) = length good.
Proof.
  intros Hs Hgood Hbad.
  destruct (register_loop_abort cfg net good rest tool_name schema 0 Hgood Hbad)
    as [O C].
  unfold register_tools, log, emit. cbn [bind]. rewrite Hs.
  destruct (register_loop cfg net 0 (good ++ (tool_name, schema) :: rest)%list)
    as [t r]. unfold outcome, trace in *. simpl in *. subst r. simpl.
  split; [reflexivity | exact C].
Qed.

Lemma register_tools_aborts_on_non_object_witness :
  outcome (register_tools default_config
             (mkHandler [("revit_element_query", VDict []);
                         ("revit_dynamo_execute", VList []);
                         ("revit_wall_create", VDict [])] None)
             (always_status 201))
  = Raise (mkExn AttributeError "'list' object has no attribute 'get'")
  /\ length (http_calls
               (trace (register_tools default_config
                         (mkHandler [("revit_element_query", VDict []);
                                     ("revit_dynamo_execute", VList []);
                                     ("revit_wall_create", VDict [])] None)
                         (always_status 201)))) = 1%nat.
Proof.
  apply (register_tools_aborts_on_non_object default_config
           (mkHandler [("revit_element_query", VDict []);
                       ("revit_dynamo_execute", VList []);
                       ("revit_wall_create", VDict [])] None)
           (always_status 201)
           [("revit_element_query", VDict [])]
           [("revit_wall_create", VDict [])]
           "revit_dynamo_execute" (VList [])).
  - reflexivity.
  - repeat constructor. eexists; reflexivity.
  - reflexivity.
Defined.




(* ===================================================================== *)
(** ** Further properties: the translators *)
(* ===================================================================== *)

Lemma get_inputs_usable (request inputs : dict) :
  inputs_of request = Some inputs ->
  get (VDict request) "inputs" (VDict []) = Ok (VDict inputs).
Proof.
  unfold inputs_of, get, dict_get_or.
  destruct (dict_get request "inputs") as [[]|]; try discriminate;
    intros [= <-]; reflexivity.
Qed.

Lemma get_inputs_unusable (request : dict) :
  inputs_of request = None ->
  exists v, dict_get request "inputs" = Some v
            /\ is_dict v = false
            /\ get (VDict request) "inputs" (VDict []) = Ok v.
Proof.
  unfold inputs_of, get, dict_get_or.
  destruct (dict_get request "inputs") as [v|]; [|discriminate].
  intros H. exists v. destruct v; try discriminate; repeat split.
Qed.

Lemma get_not_dict (v : value) (key : string) (default : value) :
  is_dict v = false -> get v key default = Raise (no_get v).
Proof.
  destruct v; simpl; intros H; try reflexivity; discriminate.
Qed.

Lemma translate_known_dict (tool_name : string) (request inputs : dict) :
  known_tool tool_name = true ->
  inputs_of request = Some inputs ->
  exists rq, translate_mcp_to_revit tool_name (VDict request) = Ok rq.
Proof.
  intros K I. pose proof (get_inputs_usable request inputs I) as G.
  apply known_tool_true in K as [-> | ->];
    unfold translate_mcp_to_revit; simpl String.eqb; cbv iota;
    rewrite G; eexists; reflexivity.
Qed.

Lemma translate_known_failure (tool_name : string) (request : value) (e : exn) :
  known_tool tool_name = true ->
  translate_mcp_to_revit tool_name request = Raise e ->
  exists v,
    is_dict v = false /\ e = no_get v /\
    (v = request \/
     exists d, request = VDict d /\ dict_get d "inputs" = Some v).
Proof.
  intros K.
  destruct (is_dict request) eqn:D.
  - destruct request as [| | | | | |d]; try discriminate.
    destruct (inputs_of d) as [i|] eqn:I.
    + destruct (translate_known_dict tool_name d i K I) as [rq ->]. discriminate.
    + destruct (get_inputs_unusable d I) as (v & Hv & Dv & G).
      intros H. exists v. split; [exact Dv|]. split; [|right; now exists d].
      apply known_tool_true in K as [-> | ->];
        unfold translate_mcp_to_revit in H; simpl String.eqb in H; cbv iota in H;
        rewrite G in H; simpl in H; rewrite (get_not_dict v _ _ Dv) in H;
        now injection H as <-.
  - intros H. exists request. split; [exact D|]. split; [|now left].
    apply known_tool_true in K as [-> | ->];
      unfold translate_mcp_to_revit in H; simpl String.eqb in H; cbv iota in H;
      rewrite (get_not_dict request _ _ D) in H; now injection H as <-.
Qed.

(** X11. [translate_mcp_to_revit] succeeds exactly for a known tool and
    a request that is a JSON object whose [inputs] is absent or a JSON
    object; no other field and no field value is checked. *)
Theorem to_backend_succeeds_iff (tool_name : string) (request : value) :
  (exists rq, translate_mcp_to_revit tool_name request = Ok rq)
  <->
  (known_tool tool_name = true /\
   exists d i, request = VDict d /\ inputs_of d = Some i).
Proof.
  split.
  - intros [rq H].
    pose proof (translate_mcp_to_revit_Ok_known _ _ _ H) as K.
    split; [exact K|].
    destruct (is_dict request) eqn:D.
    + destruct request as [| | | | | |d]; try discriminate.
      destruct (inputs_of d) as [i|] eqn:I; [now exists d, i|].
      destruct (translate_mcp_to_revit tool_name (VDict d)) as [x|e] eqn:T;
        [|discriminate].
      exfalso.
      destruct (get_inputs_unusable d I) as (v & _ & Dv & G).
      apply known_tool_true in K as [-> | ->];
        unfold translate_mcp_to_revit in T; simpl String.eqb in T; cbv iota in T;
        rewrite G in T; simpl in T; rewrite (get_not_dict v _ _ Dv) in T;
        discriminate.
    + exfalso.
      apply known_tool_true in K as [-> | ->];
        unfold translate_mcp_to_revit in H; simpl String.eqb in H; cbv iota in H;
        rewrite (get_not_dict request _ _ D) in H; discriminate.
  - intros (K & d & i & -> & I). exact (translate_known_dict tool_name d i K I).
Qed.

Lemma to_backend_succeeds_iff_witness :
  (exists rq,
      translate_mcp_to_revit "revit_element_query"
        (VDict [("inputs", VDict [("category", VInt 7)])]) = Ok rq)
  /\ ~ (exists rq,
           translate_mcp_to_revit "revit_element_query"
             (VDict [("inputs", VStr "Walls")]) = Ok rq).
Proof.
  split.
  - apply (proj2 (to_backend_succeeds_iff "revit_element_query"
                    (VDict [("inputs", VDict [("category", VInt 7)])]))).
    split; [reflexivity|].
    exists [("inputs", VDict [("category", VInt 7)])], [("category", VInt 7)].
    split; reflexivity.
  - intros H.
    apply (proj1 (to_backend_succeeds_iff "revit_element_query"
                    (VDict [("inputs", VStr "Walls")]))) in H.
    destruct H as (_ & d & i & E & I). injection E as <-. discriminate I.
Defined.

(** X12. For a known tool, the only way [translate_mcp_to_revit] fails is
    the [AttributeError] of calling [.get] on something that is not a
    dict -- the request itself, or its [inputs] value -- and the message
    names the type of that value. *)
Theorem to_backend_failure_is_attribute_error
  (tool_name : string) (request : value) (e : exn) :
  known_tool tool_name = true ->
  translate_mcp_to_revit tool_name request = Raise e ->
  exists v,
    is_dict v = false /\
    e = mkExn AttributeError
          ("'" ++ type_name v ++ "' object has no attribute 'get'") /\
    (v = request \/
     exists d, request = VDict d /\ dict_get d "inputs" = Some v).
Proof.
  exact (translate_known_failure tool_name request e).
Qed.

Lemma to_backend_failure_is_attribute_error_witness :
  exists v,
    is_dict v = false /\
    mkExn AttributeError "'NoneType' object has no attribute 'get'"
    = mkExn AttributeError
        ("'" ++ type_name v ++ "' object has no attribute 'get'") /\
    (v = VDict [("inputs", VNone)] \/
     exists d, VDict [("inputs", VNone)] = VDict d
               /\ dict_get d "inputs" = Some v).
Proof.
  apply (to_backend_failure_is_attribute_error "revit_dynamo_execute"
           (VDict [("inputs", VNone)])
           (mkExn AttributeError "'NoneType' object has no attribute 'get'")).
  - reflexivity.
  - reflexivity.
Defined.

Lemma status_not_error (resp : dict) :
  dict_get resp "status" <> Some (VStr "error") ->
  eq_str (dict_get_or resp "status" VNone) "error" = false.
Proof.
  unfold dict_get_or. intros H.
  destruct (dict_get resp "status") as [[]|]; try reflexivity.
  simpl. destruct (String.eqb_spec s "error") as [->|]; [|reflexivity].
  now elim H.
Qed.

Lemma status_error (resp : dict) :
  dict_get resp "status" = Some (VStr "error") ->
  eq_str (dict_get_or resp "status" VNone) "error" = true.
Proof.
  unfold dict_get_or. now intros ->.
Qed.

(** X13. For the two known tools, every backend response object whose
    [status] is not the string ["error"] -- absent, another string,
    another type -- is translated to a success; a missing [data] field
    becomes the empty mapping, and the Dynamo result is always wrapped
    with [success: true]. *)
Theorem to_front_success_is_default (resp : dict) :
  dict_get resp "status" <> Some (VStr "error") ->
  translate_revit_to_mcp "revit_element_query" (VDict resp)
  = Ok (VDict [("status", VStr "success");
               ("result", dict_get_or resp "data" (VDict []))])
  /\
  translate_revit_to_mcp "revit_dynamo_execute" (VDict resp)
  = Ok (VDict [("status", VStr "success");
               ("result",
                VDict [("success", VBool true);
                       ("results", dict_get_or resp "data" (VDict []))])]).
Proof.
  intros H. apply status_not_error in H.
  unfold translate_revit_to_mcp, get. simpl rbind. rewrite H.
  split; reflexivity.
Qed.

Lemma to_front_success_is_default_witness :
  dict_get [("status", VStr "failed")] "status" <> Some (VStr "error")
  /\ translate_revit_to_mcp "revit_element_query" (VDict [("status", VStr "failed")])
     = Ok (VDict [("status", VStr "success"); ("result", VDict [])]).
Proof.
  assert (H : dict_get [("status", VStr "failed")] "status" <> Some (VStr "error"))
    by discriminate.
  split; [exact H|].
  exact (proj1 (to_front_success_is_default [("status", VStr "failed")] H)).
Defined.

(** X14. [translate_revit_to_mcp] raises in exactly two cases: the
    response is not a JSON object ([AttributeError], whatever the tool),
    or the response does not report an error and the tool is unknown
    ([ValueError "Unknown tool: <name>"]). *)
Theorem to_front_raises_iff (tool_name : string) (resp : value) (e : exn) :
  translate_revit_to_mcp tool_name resp = Raise e
  <->
  (is_dict resp = false /\ e = no_get resp)
  \/
  (exists d, resp = VDict d
             /\ dict_get d "status" <> Some (VStr "error")
             /\ known_tool tool_name = false
             /\ e = mkExn ValueError ("Unknown tool: " ++ tool_name)).
Proof.
  split.
  - destruct (is_dict resp) eqn:D.
    + destruct resp as [| | | | | |d]; try discriminate.
      intros H. right. exists d. split; [reflexivity|].
      unfold translate_revit_to_mcp, get in H. simpl rbind in H.
      destruct (eq_str (dict_get_or d "status" VNone) "error") eqn:S;
        [discriminate|].
      split.
      { intros E. rewrite (status_error d E) in S. discriminate. }
      destruct (tool_name =? "revit_element_query") eqn:Q; [discriminate|].
      destruct (tool_name =? "revit_dynamo_execute") eqn:Y; [discriminate|].
      injection H as <-. split; [|reflexivity].
      unfold known_tool, known_tools. simpl. now rewrite Q, Y.
    + intros H. left. split; [reflexivity|].
      unfold translate_revit_to_mcp in H.
      rewrite (get_not_dict resp _ _ D) in H. now injection H as <-.
  - intros [[D ->] | (d & -> & S & K & ->)].
    + unfold translate_revit_to_mcp. now rewrite (get_not_dict resp _ _ D).
    + apply status_not_error in S. apply known_tool_false in K as [Q Y].
      unfold translate_revit_to_mcp, get. simpl rbind. now rewrite S, Q, Y.
Qed.

Lemma to_front_raises_iff_witness :
  translate_revit_to_mcp "revit_wall_create" (VDict [("status", VStr "ok")])
  = Raise (mkExn ValueError "Unknown tool: revit_wall_create")
  /\ translate_revit_to_mcp "revit_element_query" (VList [])
     = Raise (mkExn AttributeError "'list' object has no attribute 'get'").
Proof.
  split.
  - apply (proj2 (to_front_raises_iff "revit_wall_create"
                    (VDict [("status", VStr "ok")])
                    (mkExn ValueError "Unknown tool: revit_wall_create"))).
    right. exists [("status", VStr "ok")].
    split; [reflexivity|]. split; [discriminate|]. split; reflexivity.
  - apply (proj2 (to_front_raises_iff "revit_element_query" (VList [])
                    (mkExn AttributeError "'list' object has no attribute 'get'"))).
    left. split; reflexivity.
Defined.

(* ===================================================================== *)
(** ** Further properties: the dispatcher and the front end *)
(* ===================================================================== *)

Lemma handle_http_calls (cfg : config) (self : handler) (net : network)
  (tool_name : string) (request_data : value) :
  http_calls (trace (handle_tool_request cfg self net tool_name request_data))
  = match translate_mcp_to_revit tool_name request_data with
    | Ok rq => [EvHttp (backend_call cfg tool_name rq)]
    | Raise _ => []
    end.
Proof.
  destruct (translate_mcp_to_revit tool_name request_data) as [rq|e] eqn:T.
  - rewrite (handle_translated cfg self net tool_name request_data rq T).
    destruct (net 0%nat _) as [r|e]; [|reflexivity].
    destruct (status_code r =? 200)%Z; [|reflexivity].
    destruct (rbind _ _); reflexivity.
  - rewrite (handle_untranslatable cfg self net tool_name request_data e T).
    reflexivity.
Qed.

(** X15. One request makes one backend call at most: exactly one -- a
    POST of the translated request to the tool's endpoint -- when the
    request translates, and none when it does not.  Nothing is retried,
    whatever the backend answers. *)
Theorem dispatcher_calls_backend_once
  (cfg : config) (self : handler) (net : network)
  (tool_name : string) (request_data : value) :
  http_calls (trace (handle_tool_request cfg self net tool_name request_data))
  = match translate_mcp_to_revit tool_name request_data with
    | Ok rq =>
        [EvHttp (mkCall POST (backend_endpoint cfg tool_name) (Some rq)
                   [("Content-Type", "application/json")])]
    | Raise _ => []
    end.
Proof.
  exact (handle_http_calls cfg self net tool_name request_data).
Qed.

(** X16. When the backend answers 200 with a JSON object, the result the
    caller gets is an error exactly when the object's [status] is the
    string ["error"], and nothing is logged at level ERROR either way. *)
Theorem dispatcher_follows_backend_verdict
  (cfg : config) (self : handler) (net : network)
  (tool_name : string) (request_data rq : value) (r : response) (d : dict) :
  translate_mcp_to_revit tool_name request_data = Ok rq ->
  net 0%nat (backend_call cfg tool_name rq) = Ok r ->
  status_code r = 200%Z ->
  json r = Ok (VDict d) ->
  exists v,
    handle_tool_request cfg self net tool_name request_data
    = ([received tool_name; EvHttp (backend_call cfg tool_name rq)], Ok v)
    /\ reports_error v = eq_str (dict_get_or d "status" VNone) "error".
Proof.
  intros T N S J.
  pose proof (translate_mcp_to_revit_Ok_known _ _ _ T) as K.
  rewrite (handle_translated cfg self net tool_name request_data rq T), N.
  apply Z.eqb_eq in S. rewrite S, J. simpl rbind.
  unfold translate_revit_to_mcp, get. simpl rbind.
  destruct (eq_str (dict_get_or d "status" VNone) "error").
  - eexists. split; reflexivity.
  - apply known_tool_true in K as [-> | ->]; simpl String.eqb; cbv iota;
      eexists; split; reflexivity.
Qed.

Lemma dispatcher_follows_backend_verdict_witness :
  exists v,
    handle_tool_request default_config (mkHandler [] None)
      (always_ok (VDict [("status", VStr "error"); ("error", VStr "timeout")]))
      "revit_dynamo_execute" (VDict [])
    = ([received "revit_dynamo_execute";
        EvHttp (backend_call default_config "revit_dynamo_execute"
                  (VDict [("action", VStr "runDynamoScript");
                          ("parameters", VDict [("scriptPath", VStr "");
                                                ("scriptParameters", VDict [])])]))],
       Ok v)
    /\ reports_error v = true.
Proof.
  apply (dispatcher_follows_backend_verdict default_config (mkHandler [] None)
           (always_ok (VDict [("status", VStr "error"); ("error", VStr "timeout")]))
           "revit_dynamo_execute" (VDict [])
           (VDict [("action", VStr "runDynamoScript");
                   ("parameters", VDict [("scriptPath", VStr "");
                                         ("scriptParameters", VDict [])])])
           (mkResponse 200 ""
              (Ok (VDict [("status", VStr "error"); ("error", VStr "timeout")])))
           [("status", VStr "error"); ("error", VStr "timeout")]);
    reflexivity.
Defined.

(** X17. A backend status other than 200 gives the caller an error
    result, but the dispatcher logs nothing at level ERROR for it: its
    only events are the "Handling request" line and the backend call. *)
Theorem backend_status_error_is_not_logged
  (cfg : config) (self : handler) (net : network)
  (tool_name : string) (request_data rq : value) (r : response) :
  translate_mcp_to_revit tool_name request_data = Ok rq ->
  net 0%nat (backend_call cfg tool_name rq) = Ok r ->
  status_code r <> 200%Z ->
  handle_tool_request cfg self net tool_name request_data
  = ([EvLog INFO ("Handling request for tool: " ++ tool_name);
      EvHttp (backend_call cfg tool_name rq)],
     Ok (VDict [("status", VStr "error");
                ("error", VStr ("Revit MCP Server returned status "
                                ++ str_int (status_code r) ++ ": " ++ text r))])).
Proof.
  intros T N S.
  rewrite (handle_translated cfg self net tool_name request_data rq T), N.
  apply Z.eqb_neq in S. rewrite S. reflexivity.
Qed.

Lemma backend_status_error_is_not_logged_witness :
  handle_tool_request default_config (mkHandler [] None) (always_status 201)
    "revit_element_query" (VDict [])
  = ([EvLog INFO "Handling request for tool: revit_element_query";
      EvHttp (backend_call default_config "revit_element_query"
                (VDict [("action", VStr "getElementsByCategory");
                        ("parameters", VDict [("category", VStr "");
                                              ("filterExpression", VStr "")])]))],
     Ok (VDict [("status", VStr "error");
                ("error", VStr "Revit MCP Server returned status 201: ")])).
Proof.
  apply (backend_status_error_is_not_logged default_config (mkHandler [] None)
           (always_status 201) "revit_element_query" (VDict [])
           (VDict [("action", VStr "getElementsByCategory");
                   ("parameters", VDict [("category", VStr "");
                                         ("filterExpression", VStr "")])])
           (mkResponse 201 "" (Raise (mkExn JSONDecodeError "Expecting value")))).
  - reflexivity.
  - reflexivity.
  - discriminate.
Defined.

Lemma handle_trace_no_reply_any (cfg : config) (self : handler) (net : network)
  (tool_name : string) (request_data : value) :
  filter is_reply (trace (handle_tool_request cfg self net tool_name request_data))
  = [].
Proof.
  destruct (translate_mcp_to_revit tool_name request_data) as [q|e] eqn:T.
  - rewrite (handle_translated cfg self net tool_name request_data q T).
    destruct (net 0%nat _) as [r|e]; [|reflexivity].
    destruct (status_code r =? 200)%Z; [|reflexivity].
    destruct (rbind _ _); reflexivity.
  - rewrite (handle_untranslatable cfg self net tool_name request_data e T).
    reflexivity.
Qed.

Lemma has_char_app (c : ascii) (u v : string) :
  has_char c (u ++ v) = has_char c u || has_char c v.
Proof.
  unfold has_char. induction u as [|a u IH]; simpl; [reflexivity|].
  rewrite IH. now rewrite orb_assoc.
Qed.

Lemma has_char_cons (c a : ascii) (u : string) :
  has_char c (String a u) = Ascii.eqb c a || has_char c u.
Proof. reflexivity. Qed.

Lemma rstrip_slashes (n : nat) : rstrip "/" (slashes n) = "".
Proof.
  induction n as [|n IH]; simpl; [reflexivity|]. now rewrite IH.
Qed.

Lemma rstrip_segment (t : string) (n : nat) :
  t <> "" ->
  has_char "/" t = false ->
  rstrip "/" (t ++ slashes n) = t.
Proof.
  induction t as [|a t IH]; intros Hne Hno; [now elim Hne|].
  rewrite has_char_cons in Hno. apply orb_false_iff in Hno as [Ha Ht].
  cbn [append rstrip].
  destruct t as [|b t'].
  - cbn [append]. rewrite rstrip_slashes.
    rewrite Ascii.eqb_sym, Ha. reflexivity.
  - rewrite IH by (try discriminate; assumption). reflexivity.
Qed.

Lemma rstrip_prefix (u w w' : string) :
  rstrip "/" w = w' ->
  w' <> "" ->
  rstrip "/" (u ++ w) = u ++ w'.
Proof.
  intros Hw Hne. induction u as [|a u IH]; [exact Hw|].
  cbn [append rstrip]. rewrite IH.
  destruct (u ++ w') as [|b x] eqn:E; [|reflexivity].
  destruct u; [now elim Hne | discriminate].
Qed.

Lemma split_last_segment (t : string) :
  has_char "/" t = false -> split_last "/" t = t.
Proof.
  destruct t as [|a t]; [reflexivity|].
  rewrite has_char_cons. intros H. apply orb_false_iff in H as [Ha Ht].
  cbn [split_last]. fold (has_char "/" t). rewrite Ht.
  rewrite Ascii.eqb_sym, Ha. reflexivity.
Qed.

Lemma split_last_after_slash (u t : string) :
  has_char "/" t = false ->
  split_last "/" (u ++ String "/" t) = t.
Proof.
  intros Ht. induction u as [|a u IH].
  - cbn [append split_last]. fold (has_char "/" t). rewrite Ht. reflexivity.
  - cbn [append split_last]. fold (has_char "/" (u ++ String "/" t)).
    rewrite has_char_app, has_char_cons. simpl Ascii.eqb.
    rewrite orb_true_r. exact IH.
Qed.

Lemma tool_of_path (pre t : string) (n : nat) :
  t <> "" ->
  has_char "/" t = false ->
  split_last "/" (strip "/" (pre ++ String "/" (t ++ slashes n))) = t.
Proof.
  intros Hne Hno. unfold strip.
  assert (Hstart : lstrip "/" (t ++ slashes n) = t ++ slashes n).
  { destruct t as [|a t']; [now elim Hne|].
    rewrite has_char_cons in Hno. apply orb_false_iff in Hno as [Ha _].
    cbn [append lstrip]. rewrite Ascii.eqb_sym, Ha. reflexivity. }
  induction pre as [|a pre IH].
  - cbn [append lstrip]. simpl Ascii.eqb. cbv iota.
    rewrite Hstart, (rstrip_segment t n Hne Hno).
    exact (split_last_segment t Hno).
  - cbn [append lstrip].
    destruct (Ascii.eqb a "/"); [exact IH|].
    assert (H1 : rstrip "/" (String "/" (t ++ slashes n)) = String "/" t).
    { apply (rstrip_prefix "/" (t ++ slashes n) t (rstrip_segment t n Hne Hno) Hne). }
    change (String a (pre ++ String "/" (t ++ slashes n)))
      with (String a pre ++ String "/" (t ++ slashes n)).
    rewrite (rstrip_prefix (String a pre) _ (String "/" t) H1) by discriminate.
    exact (split_last_after_slash (String a pre) t Hno).
Qed.

(** X18. The tool a POST is dispatched to is the last segment of the
    request path: whatever precedes the final slash-separated name, and
    however many slashes follow it, the body [do_POST] sends back is the
    dispatcher's result for that name and its backend calls are the
    dispatcher's calls for that name; the [/tools/] prefix is not
    required. *)
Theorem post_dispatches_on_last_segment
  (cfg : config) (self : handler) (net : network)
  (pre t : string) (n : nat) (cl : Z) (request_data : value)
  (address line : string) :
  t <> "" ->
  has_char "/" t = false ->
  exists v,
    outcome (handle_tool_request cfg self net t request_data) = Ok v /\
    filter is_reply
      (trace (do_POST cfg self net
                (mkPost (Ok cl) (Ok request_data)
                   (pre ++ String "/" (t ++ slashes n)) address line)))
    = reply 200 v /\
    http_calls
      (trace (do_POST cfg self net
                (mkPost (Ok cl) (Ok request_data)
                   (pre ++ String "/" (t ++ slashes n)) address line)))
    = http_calls (trace (handle_tool_request cfg self net t request_data)).
Proof.
  intros Hne Hno.
  destruct (do_POST_decoded cfg self net
              (mkPost (Ok cl) (Ok request_data)
                 (pre ++ String "/" (t ++ slashes n)) address line)
              cl request_data eq_refl eq_refl) as (v & Hv & Hpost).
  cbn [path] in Hv, Hpost. rewrite (tool_of_path pre t n Hne Hno) in Hv, Hpost.
  exists v. split; [exact Hv|]. rewrite Hpost. unfold trace at 1 3. cbn [fst].
  split.
  - rewrite filter_app, handle_trace_no_reply_any. reflexivity.
  - unfold http_calls. rewrite filter_app. simpl. now rewrite app_nil_r.
Qed.

Lemma post_dispatches_on_last_segment_witness :
  "revit_element_query" <> ""
  /\ exists v,
       outcome (handle_tool_request default_config (mkHandler [] None) unreachable
                  "revit_element_query" (VDict [])) = Ok v /\
       filter is_reply
         (trace (do_POST default_config (mkHandler [] None) unreachable
                   (mkPost (Ok 2%Z) (Ok (VDict [])) "/api/v2/revit_element_query//"
                      "127.0.0.1" "POST /api/v2/revit_element_query// HTTP/1.1")))
       = reply 200 v.
Proof.
  split; [discriminate|].
  destruct (post_dispatches_on_last_segment default_config (mkHandler [] None)
              unreachable "/api/v2" "revit_element_query" 2 2%Z (VDict [])
              "127.0.0.1" "POST /api/v2/revit_element_query// HTTP/1.1")
    as (v & H1 & H2 & _).
  - discriminate.
  - reflexivity.
  - exists v. split; [exact H1 | exact H2].
Defined.

(** X19. A request whose [Content-Length] header or whose body cannot be
    decoded is dropped without a trace: [do_POST] raises before the
    dispatcher is called, so nothing is logged, no backend call is made
    and nothing is sent back; when both are bad the header's exception is
    the one raised. *)
Theorem undecodable_post_leaves_no_trace
  (cfg : config) (self : handler) (net : network) (rq : post_request) (e : exn) :
  (content_length rq = Raise e ->
   do_POST cfg self net rq = ([], Raise e))
  /\
  (forall cl,
      content_length rq = Ok cl ->
      body_json rq = Raise e ->
      do_POST cfg self net rq = ([], Raise e)).
Proof.
  unfold do_POST. split.
  - intros ->. reflexivity.
  - intros cl -> ->. reflexivity.
Qed.

Lemma undecodable_post_leaves_no_trace_witness :
  do_POST default_config (mkHandler [] None) (always_ok (VDict []))
    (mkPost (Raise (mkExn TypeError
                      "int() argument must be a string, a bytes-like object or a real number, not 'NoneType'"))
            (Raise (mkExn JSONDecodeError "Expecting value"))
            "/tools/revit_element_query" "127.0.0.1"
            "POST /tools/revit_element_query HTTP/1.1")
  = ([], Raise (mkExn TypeError
                  "int() argument must be a string, a bytes-like object or a real number, not 'NoneType'")).
Proof.
  apply (proj1 (undecodable_post_leaves_no_trace default_config (mkHandler [] None)
                  (always_ok (VDict []))
                  (mkPost (Raise (mkExn TypeError
                                    "int() argument must be a string, a bytes-like object or a real number, not 'NoneType'"))
                     (Raise (mkExn JSONDecodeError "Expecting value"))
                     "/tools/revit_element_query" "127.0.0.1"
                     "POST /tools/revit_element_query HTTP/1.1")
                  (mkExn TypeError
                     "int() argument must be a string, a bytes-like object or a real number, not 'NoneType'"))).
  reflexivity.
Defined.

(** X20. Serving one POST costs the backend one call at most, whatever
    the request and whatever the backend answers. *)
Theorem post_calls_backend_at_most_once
  (cfg : config) (self : handler) (net : network) (rq : post_request) :
  (length (http_calls (trace (do_POST cfg self net rq))) <= 1)%nat.
Proof.
  destruct (content_length rq) as [cl|e] eqn:Hcl.
  - destruct (body_json rq) as [request_data|e] eqn:Hbody.
    + destruct (do_POST_decoded cfg self net rq cl request_data Hcl Hbody)
        as (v & _ & ->).
      unfold trace at 1. cbn [fst]. unfold http_calls.
      rewrite filter_app. fold (http_calls
        (trace (handle_tool_request cfg self net
                  (split_last "/" (strip "/" (path rq))) request_data))).
      rewrite handle_http_calls.
      destruct (translate_mcp_to_revit _ request_data); simpl; lia.
    + destruct (do_POST_undecoded cfg self net rq) as [e' ->]; [|simpl; lia].
      right. now exists e.
  - destruct (do_POST_undecoded cfg self net rq) as [e' ->]; [|simpl; lia].
    left. now exists e.
Qed.

(* ===================================================================== *)
(** ** Further properties: the output monitor *)
(* ===================================================================== *)

Lemma log_pipe_decoded (lvl : level) (lines : list string) :
  log_pipe lvl (map Ok lines) = (map (server_line lvl) lines, Ok tt).
Proof.
  induction lines as [|l rest IH]; [reflexivity|].
  cbn [map log_pipe]. unfold lift, log, emit. cbn [bind].
  rewrite IH. reflexivity.
Qed.

Lemma log_pipe_undecodable (lvl : level) (lines : list string) (e : exn)
  (rest : pipe) :
  log_pipe lvl (map Ok lines ++ Raise e :: rest)%list
  = (map (server_line lvl) lines, Raise e).
Proof.
  induction lines as [|l more IH]; [reflexivity|].
  cbn [map app log_pipe]. unfold lift, log, emit. cbn [bind].
  rewrite IH. reflexivity.
Qed.

(** X21. The monitor reads the server's standard error only after its
    standard output is exhausted: every output line is logged at level
    INFO before any error line is logged at level ERROR.  A line of
    standard output that cannot be decoded ends the monitor with that
    exception, and then no line of standard error is ever logged. *)
Theorem monitor_logs_stdout_before_stderr :
  (forall out err : list string,
      _monitor_process_output (map Ok out) (map Ok err)
      = ((map (server_line INFO) out ++ map (server_line ERROR) err)%list,
         Ok VNone))
  /\
  (forall (out : list string) (e : exn) (rest err : pipe),
      _monitor_process_output (map Ok out ++ Raise e :: rest)%list err
      = (map (server_line INFO) out, Raise e)).
Proof.
  split.
  - intros out err. unfold _monitor_process_output.
    rewrite !log_pipe_decoded. cbn [bind ret]. now rewrite app_nil_r.
  - intros out e rest err. unfold _monitor_process_output.
    rewrite log_pipe_undecodable. reflexivity.
Qed.

(* ===================================================================== *)
(** ** Further properties: start-up, [main] and shutdown together *)
(* ===================================================================== *)

Lemma handler_events_app (t u : list sys_event) :
  handler_events (t ++ u) = (handler_events t ++ handler_events u)%list.
Proof.
  induction t as [|e t IH]; simpl; [reflexivity|].
  destruct e; simpl; now rewrite IH.
Qed.

Lemma handler_events_Do (t : list event) : handler_events (map Do t) = t.
Proof.
  induction t as [|e t IH]; simpl; [reflexivity | now rewrite IH].
Qed.

Lemma filter_serving_Do (t : list event) : filter is_serving (map Do t) = [].
Proof.
  induction t as [|e t IH]; simpl; [reflexivity | exact IH].
Qed.

Lemma filter_listen_Do (t : list event) : filter is_listen (map Do t) = [].
Proof.
  induction t as [|e t IH]; simpl; [reflexivity | exact IH].
Qed.

Lemma wait_exhausted (cfg : config) (net : network) (max_retries retry_interval : Z) :
  (0 <= retry_interval)%Z ->
  never_ready cfg net (Z.to_nat max_retries) ->
  _wait_for_server_ready cfg net max_retries retry_interval
  = ((EvLog INFO ("Waiting for Revit MCP Server at http://" ++ REVIT_HOST cfg
                  ++ ":" ++ str_int (REVIT_PORT cfg) ++ "...")
      :: failed_attempts cfg retry_interval (Z.to_nat max_retries)
      ++ [EvLog ERROR ("Revit MCP Server not ready after "
                       ++ str_int (max_retries * retry_interval) ++ " seconds")])%list,
     Raise (mkExn RuntimeError "Failed to connect to Revit MCP Server")).
Proof.
  intros Hitv H. unfold _wait_for_server_ready, log, emit. cbn [bind].
  rewrite (wait_loop_all_fail cfg net retry_interval Hitv (Z.to_nat max_retries) 0)
    by (intros i Hi; apply H; lia).
  reflexivity.
Qed.

Lemma wait_calls_bounded (cfg : config) (net : network)
  (max_retries retry_interval : Z) :
  (0 <= retry_interval)%Z ->
  (length (http_calls (trace (_wait_for_server_ready cfg net max_retries
                                retry_interval)))
   <= Z.to_nat max_retries)%nat.
Proof.
  intros Hitv.
  pose proof (wait_loop_calls_bounded cfg net retry_interval Hitv
                (Z.to_nat max_retries) 0) as B.
  unfold _wait_for_server_ready, log, emit. cbn [bind].
  destruct (wait_loop cfg net retry_interval 0 (Z.to_nat max_retries))
    as [t [[v|]|e]]; unfold trace in *; simpl in *;
    unfold http_calls in *; rewrite ?filter_app; simpl;
    rewrite ?app_nil_r, ?length_app; simpl; lia.
Qed.

(** X22. [start_revit_server] stores the process handle before it waits
    for readiness and probes the server at most thirty times: whether or
    not the server becomes ready, a later [shutdown] of the handler it
    leaves behind terminates the spawned process.  When the process cannot
    be spawned the handler is left as it was and no probe is made. *)
Theorem start_leaves_a_stoppable_handler
  (cfg : config) (self : handler) (net : network) :
  (forall p wait_result,
      In (EvTerminate p)
         (trace (shutdown (fst (start_revit_server cfg self (Ok p) net))
                   wait_result))
      /\ (length (http_calls
                    (handler_events
                       (fst (snd (start_revit_server cfg self (Ok p) net)))))
          <= 30)%nat)
  /\
  (forall e,
      start_revit_server cfg self (Raise e) net
      = (self,
         ([Do (EvLog INFO "Starting Revit MCP Server..."); EvPopen server_argv],
          Raise e))).
Proof.
  split.
  - intros p wait_result. split.
    + cbn [start_revit_server fst]. unfold shutdown. cbn [revit_server_process].
      unfold log, emit, lift. cbn [bind].
      destruct wait_result; simpl; auto.
    + cbn [start_revit_server fst snd].
      pose proof (wait_calls_bounded cfg net 30 1 Z.le_0_1) as B.
      unfold run, pemit, log, emit. cbn [pbind trace outcome fst snd map].
      destruct (_wait_for_server_ready cfg net 30 1) as [t r].
      cbn [pbind trace outcome fst snd map app handler_events].
      unfold trace in B. cbn [fst] in B.
      rewrite handler_events_Do. simpl in B. exact B.
  - intros e. reflexivity.
Qed.

(** X23. When the schema directory cannot be loaded, [main] ends with
    that exception before anything is started: the handler is built
    outside the [try], so there is no "Fatal error" line, no process, no
    registration and no shutdown. *)
Theorem main_stops_on_unloadable_schemas (cfg : config) (w : world) (e : exn) :
  _load_tool_schemas (schema_dir w) = Raise e ->
  main cfg w
  = ([Do (EvLog INFO "Starting Revit MCP Tool Handler...")], Uncaught e).
Proof.
  intros H. unfold main, init. rewrite H. reflexivity.
Qed.

Lemma main_stops_on_unloadable_schemas_witness :
  main default_config
    (mkWorld (Ok [("revit_element_query.json",
                   Raise (mkExn JSONDecodeError "Expecting value"))])
       (Ok (mkProcess 4242)) (always_ok VNone) (always_status 201) (Ok tt)
       [] Interrupted (Ok 0%Z))
  = ([Do (EvLog INFO "Starting Revit MCP Tool Handler...")],
     Uncaught (mkExn JSONDecodeError "Expecting value")).
Proof.
  apply (main_stops_on_unloadable_schemas default_config
           (mkWorld (Ok [("revit_element_query.json",
                          Raise (mkExn JSONDecodeError "Expecting value"))])
              (Ok (mkProcess 4242)) (always_ok VNone) (always_status 201) (Ok tt)
              [] Interrupted (Ok 0%Z))).
  reflexivity.
Defined.

(** X24. Once the backend process has been spawned, [main] always ends by
    shutting it down -- termination signal, then the bounded wait --
    however start-up, registration and serving went. *)
Theorem main_always_shuts_down
  (cfg : config) (w : world) (schemas : dict) (p : process) :
  _load_tool_schemas (schema_dir w) = Ok schemas ->
  popen w = Ok p ->
  exists before,
    fst (main cfg w)
    = (before
       ++ map Do (trace (shutdown (mkHandler schemas (Some p)) (process_wait w))))%list
    /\ In (Do (EvTerminate p)) (fst (main cfg w))
    /\ In (Do (EvWait p 5)) (fst (main cfg w)).
Proof.
  intros Hs Hp. unfold main, init. rewrite Hs. cbn [rbind].
  rewrite Hp. cbn [start_revit_server tool_schemas].
  destruct (main_guarded _) as [t pending].
  unfold run. cbn [fst].
  exists (Do (EvLog INFO "Starting Revit MCP Tool Handler...") :: t).
  split; [reflexivity|].
  assert (T : In (EvTerminate p)
                 (trace (shutdown (mkHandler schemas (Some p)) (process_wait w)))
              /\ In (EvWait p 5)
                   (trace (shutdown (mkHandler schemas (Some p)) (process_wait w)))).
  { unfold shutdown. cbn [revit_server_process].
    unfold log, emit, lift. cbn [bind].
    destruct (process_wait w); simpl; auto. }
  destruct T as [T1 T2].
  split; right; apply in_or_app; right; apply in_map; assumption.
Qed.

Lemma main_always_shuts_down_witness :
  In (Do (EvTerminate (mkProcess 4242)))
     (fst (main default_config
             (mkWorld (Ok []) (Ok (mkProcess 4242)) unreachable unreachable
                (Raise (mkExn OSError "Address already in use"))
                [] (Failed (mkExn OSError "Bad file descriptor"))
                (Raise (mkExn TimeoutExpired "timed out after 5 seconds"))))).
Proof.
  destruct (main_always_shuts_down default_config
              (mkWorld (Ok []) (Ok (mkProcess 4242)) unreachable unreachable
                 (Raise (mkExn OSError "Address already in use"))
                 [] (Failed (mkExn OSError "Bad file descriptor"))
                 (Raise (mkExn TimeoutExpired "timed out after 5 seconds")))
              [] (mkProcess 4242) eq_refl eq_refl) as (before & _ & H & _).
  exact H.
Defined.

Lemma main_filter (f : sys_event -> bool) (cfg : config) (w : world)
  (schemas : dict) (p : process) :
  (forall e, f (Do e) = false) ->
  f (EvPopen server_argv) = false ->
  f (EvThreadStart p) = false ->
  _load_tool_schemas (schema_dir w) = Ok schemas ->
  popen w = Ok p ->
  filter f (fst (main cfg w))
  = match outcome (_wait_for_server_ready cfg (backend w) 30 1),
          outcome (register_tools cfg (mkHandler schemas (Some p)) (registry w))
    with
    | Ok _, Ok _ =>
        (filter f [EvListen "0.0.0.0" (TOOL_PORT cfg)]
         ++ match listen w with
            | Ok _ => filter f [EvServeForever; EvServerClose]
            | Raise _ => []
            end)%list
    | _, _ => []
    end.
Proof.
  intros HD HP HT Hs Hp.
  assert (HDo : forall t, filter f (map Do t) = []).
  { induction t as [|e t IH]; simpl; [reflexivity | now rewrite HD]. }
  unfold main, init. rewrite Hs. cbn [rbind].
  rewrite Hp. cbn [start_revit_server tool_schemas].
  unfold main_body, main_guarded, run, pemit, plift, log, emit.
  cbn [pbind trace outcome fst snd map].
  destruct (_wait_for_server_ready cfg (backend w) 30 1) as [tw [vw|ew]];
    cbn [pbind trace outcome fst snd map app].
  - destruct (register_tools cfg (mkHandler schemas (Some p)) (registry w))
      as [tr [vr|er]]; cbn [pbind trace outcome fst snd map app].
    + destruct (listen w) as [[]|el]; cbn [pbind trace outcome fst snd map app].
      * destruct (serve_end w); cbn [pbind trace outcome fst snd map app];
          destruct (shutdown _ _) as [ts rs]; cbn [fst snd];
          cbn [filter]; rewrite ?HP, ?HT, ?HD;
          repeat (rewrite ?filter_app, ?HDo, ?HD, ?HP, ?HT; cbn [filter app]);
          rewrite ?app_nil_r;
          destruct (f (EvListen "0.0.0.0" (TOOL_PORT cfg)));
          destruct (f EvServeForever); destruct (f EvServerClose);
          reflexivity.
      * destruct (shutdown _ _) as [ts rs]; cbn [fst snd];
          cbn [filter]; rewrite ?HP, ?HT, ?HD;
          repeat (rewrite ?filter_app, ?HDo, ?HD, ?HP, ?HT; cbn [filter app]);
          rewrite ?app_nil_r;
          destruct (f (EvListen "0.0.0.0" (TOOL_PORT cfg))); reflexivity.
    + destruct (shutdown _ _) as [ts rs]; cbn [fst snd];
        cbn [filter]; rewrite ?HP, ?HT, ?HD;
        repeat (rewrite ?filter_app, ?HDo, ?HD, ?HP, ?HT; cbn [filter app]); reflexivity.
  - destruct (shutdown _ _) as [ts rs]; cbn [fst snd];
      cbn [filter]; rewrite ?HP, ?HT, ?HD;
      repeat (rewrite ?filter_app, ?HDo, ?HD, ?HP, ?HT; cbn [filter app]); reflexivity.
Qed.

Lemma main_exit (cfg : config) (w : world) (schemas : dict) (p : process) :
  _load_tool_schemas (schema_dir w) = Ok schemas ->
  popen w = Ok p ->
  snd (main cfg w)
  = match process_wait w with
    | Raise e => Uncaught e
    | Ok _ =>
        match outcome (_wait_for_server_ready cfg (backend w) 30 1),
              outcome (register_tools cfg (mkHandler schemas (Some p)) (registry w)),
              listen w, serve_end w
        with
        | Ok _, Ok _, Ok _, Stopped => Returned
        | Ok _, Ok _, Ok _, Interrupted => Returned
        | _, _, _, _ => SystemExit 1
        end
    end.
Proof.
  intros Hs Hp. unfold main, init. rewrite Hs. cbn [rbind].
  rewrite Hp. cbn [start_revit_server tool_schemas].
  unfold main_body, main_guarded, run, pemit, plift, log, emit.
  cbn [pbind trace outcome fst snd map].
  unfold shutdown. cbn [revit_server_process].
  unfold log, emit, lift. cbn [bind].
  destruct (_wait_for_server_ready cfg (backend w) 30 1) as [tw [vw|ew]];
    cbn [pbind trace outcome fst snd map app];
    [destruct (register_tools cfg (mkHandler schemas (Some p)) (registry w))
       as [tr [vr|er]]; cbn [pbind trace outcome fst snd map app];
     [destruct (listen w) as [[]|el]; cbn [pbind trace outcome fst snd map app];
      [destruct (serve_end w); cbn [pbind trace outcome fst snd map app]| ]| ]| ];
    destruct (process_wait w); reflexivity.
Qed.

Lemma main_without_process
  (cfg : config) (w : world) (schemas : dict) (e : exn) :
  _load_tool_schemas (schema_dir w) = Ok schemas ->
  popen w = Raise e ->
  main cfg w
  = ([Do (EvLog INFO "Starting Revit MCP Tool Handler...");
      Do (EvLog INFO "Starting Revit MCP Server...");
      EvPopen server_argv;
      Do (EvLog ERROR ("Fatal error: " ++ str e));
      Do (EvLog INFO "Revit MCP Tool Handler shutdown complete")],
     SystemExit 1).
Proof.
  intros Hs Hp. unfold main, init. rewrite Hs. cbn [rbind].
  rewrite Hp. reflexivity.
Qed.

(** X25. A backend that is not ready after thirty probes is fatal to
    start-up: [main] logs the fatal error, registers no tool and opens no
    listening socket, shuts the spawned process down, and ends with exit
    status 1 -- or with the shutdown's own exception when that fails. *)
Theorem main_readiness_failure_is_fatal
  (cfg : config) (w : world) (schemas : dict) (p : process) :
  _load_tool_schemas (schema_dir w) = Ok schemas ->
  popen w = Ok p ->
  never_ready cfg (backend w) 30 ->
  main cfg w
  = (([Do (EvLog INFO "Starting Revit MCP Tool Handler...");
       Do (EvLog INFO "Starting Revit MCP Server...");
       EvPopen server_argv;
       EvThreadStart p]
      ++ map Do (trace (_wait_for_server_ready cfg (backend w) 30 1))
      ++ [Do (EvLog ERROR "Fatal error: Failed to connect to Revit MCP Server")]
      ++ map Do (trace (shutdown (mkHandler schemas (Some p)) (process_wait w))))%list,
     match process_wait w with
     | Ok _ => SystemExit 1
     | Raise e => Uncaught e
     end).
Proof.
  intros Hs Hp Hn.
  pose proof (wait_exhausted cfg (backend w) 30 1 Z.le_0_1 Hn) as E.
  unfold main, init. rewrite Hs. cbn [rbind].
  rewrite Hp. cbn [start_revit_server tool_schemas].
  unfold main_body, main_guarded, run at 1 2, pemit, plift.
  rewrite E. unfold log at 1, emit at 1.
  cbn [pbind trace outcome fst snd map app str exn_msg].
  unfold shutdown. cbn [revit_server_process].
  unfold run, log, emit, lift. cbn [bind].
  destruct (process_wait w); cbn [trace outcome fst snd map app];
    rewrite <- ?app_assoc; reflexivity.
Qed.

Lemma main_readiness_failure_is_fatal_witness :
  snd (main default_config
         (mkWorld (Ok []) (Ok (mkProcess 4242)) unreachable (always_status 201)
            (Ok tt) [] Interrupted (Ok 0%Z)))
  = SystemExit 1.
Proof.
  refine (f_equal snd
            (main_readiness_failure_is_fatal default_config
               (mkWorld (Ok []) (Ok (mkProcess 4242)) unreachable (always_status 201)
                  (Ok tt) [] Interrupted (Ok 0%Z))
               [] (mkProcess 4242) eq_refl eq_refl _)).
  intros i _. reflexivity.
Defined.

(** X26. When the spawned process does not exit within the shutdown
    timeout, the [TimeoutExpired] of the wait is what [main] ends with,
    whatever happened before: it replaces both the normal return and the
    exit status 1 of a fatal error. *)
Theorem main_shutdown_timeout_masks_exit
  (cfg : config) (w : world) (schemas : dict) (p : process) (e : exn) :
  _load_tool_schemas (schema_dir w) = Ok schemas ->
  popen w = Ok p ->
  process_wait w = Raise e ->
  snd (main cfg w) = Uncaught e.
Proof.
  intros Hs Hp Hw. rewrite (main_exit cfg w schemas p Hs Hp), Hw. reflexivity.
Qed.

Lemma main_shutdown_timeout_masks_exit_witness :
  snd (main default_config
         (mkWorld (Ok []) (Ok (mkProcess 4242)) unreachable (always_status 201)
            (Ok tt) [] Interrupted
            (Raise (mkExn TimeoutExpired "timed out after 5 seconds"))))
  = Uncaught (mkExn TimeoutExpired "timed out after 5 seconds").
Proof.
  apply (main_shutdown_timeout_masks_exit default_config
           (mkWorld (Ok []) (Ok (mkProcess 4242)) unreachable (always_status 201)
              (Ok tt) [] Interrupted
              (Raise (mkExn TimeoutExpired "timed out after 5 seconds")))
           [] (mkProcess 4242)); reflexivity.
Defined.

(** X27. When the backend process cannot be spawned, [main] logs the
    fatal error and ends with exit status 1 without probing, registering
    or listening; its shutdown has no process to stop, so it neither
    signals nor waits. *)
Theorem main_spawn_failure_is_fatal
  (cfg : config) (w : world) (schemas : dict) (e : exn) :
  _load_tool_schemas (schema_dir w) = Ok schemas ->
  popen w = Raise e ->
  main cfg w
  = ([Do (EvLog INFO "Starting Revit MCP Tool Handler...");
      Do (EvLog INFO "Starting Revit MCP Server...");
      EvPopen server_argv;
      Do (EvLog ERROR ("Fatal error: " ++ str e));
      Do (EvLog INFO "Revit MCP Tool Handler shutdown complete")],
     SystemExit 1).
Proof.
  exact (main_without_process cfg w schemas e).
Qed.

Lemma main_spawn_failure_is_fatal_witness :
  main default_config
    (mkWorld (Ok []) (Raise (mkExn OSError "No such file or directory: 'dotnet'"))
       (always_ok VNone) (always_status 201) (Ok tt) [] Interrupted
       (Raise (mkExn TimeoutExpired "timed out after 5 seconds")))
  = ([Do (EvLog INFO "Starting Revit MCP Tool Handler...");
      Do (EvLog INFO "Starting Revit MCP Server...");
      EvPopen server_argv;
      Do (EvLog ERROR "Fatal error: No such file or directory: 'dotnet'");
      Do (EvLog INFO "Revit MCP Tool Handler shutdown complete")],
     SystemExit 1).
Proof.
  exact (main_spawn_failure_is_fatal default_config
           (mkWorld (Ok []) (Raise (mkExn OSError "No such file or directory: 'dotnet'"))
              (always_ok VNone) (always_status 201) (Ok tt) [] Interrupted
              (Raise (mkExn TimeoutExpired "timed out after 5 seconds")))
           [] (mkExn OSError "No such file or directory: 'dotnet'")
           eq_refl eq_refl).
Defined.

(** X28. [main] never leaves the HTTP server open: in every run it
    either does not serve at all, or [serve_forever] is followed by
    [server_close] -- whether serving was interrupted, returned or
    failed. *)
Theorem main_closes_the_server (cfg : config) (w : world) :
  filter is_serving (fst (main cfg w)) = []
  \/ filter is_serving (fst (main cfg w)) = [EvServeForever; EvServerClose].
Proof.
  destruct (_load_tool_schemas (schema_dir w)) as [schemas|e] eqn:Hs.
  - destruct (popen w) as [p|e] eqn:Hp.
    + rewrite (main_filter is_serving cfg w schemas p
                 (fun _ => eq_refl) eq_refl eq_refl Hs Hp).
      destruct (outcome (_wait_for_server_ready cfg (backend w) 30 1));
        [|now left].
      destruct (outcome (register_tools cfg _ (registry w))); [|now left].
      destruct (listen w); [now right | now left].
    + rewrite (main_without_process cfg w schemas e Hs Hp). now left.
  - left. unfold main, init. rewrite Hs. reflexivity.
Qed.

Lemma wait_ready_outcome (cfg : config) (net : network)
  (max_retries retry_interval : Z) (k : nat) (r : response) :
  (0 <= retry_interval)%Z ->
  (k < Z.to_nat max_retries)%nat ->
  (forall i, (i < k)%nat -> attempt_fails cfg net i = true) ->
  net k (status_call cfg) = Ok r ->
  status_code r = 200%Z ->
  outcome (_wait_for_server_ready cfg net max_retries retry_interval) = Ok VNone.
Proof.
  intros Hitv Hk Hfail Hr Hs.
  unfold _wait_for_server_ready, log, emit. cbn [bind].
  rewrite (wait_loop_ready_at cfg net retry_interval Hitv k 0
             (Z.to_nat max_retries) r)
    by (try assumption; intros i Hi; apply Hfail; lia).
  reflexivity.
Qed.

Lemma register_tools_outcome (cfg : config) (self : handler) (net : network) :
  Forall is_schema_dict (tool_schemas self) ->
  outcome (register_tools cfg self net) = Ok VNone.
Proof.
  intros H.
  destruct (register_loop_events cfg net (tool_schemas self) 0 H) as (evs & L & _).
  unfold register_tools, log, emit. cbn [bind]. rewrite L. reflexivity.
Qed.

(** X29. Once the backend is ready, nothing the registry does keeps the
    bridge from going on: with schemas that are JSON objects, [main]
    constructs its HTTP server for [0.0.0.0:TOOL_PORT] whatever the
    registry answers.  When the socket opens it serves and then closes
    the server, and -- the process stopped in time -- it returns normally
    when serving is interrupted or stops and ends with exit status 1 only
    when serving itself fails; when the socket cannot be opened it does
    not serve and ends with exit status 1. *)
Theorem main_serves_whatever_the_registry_answers
  (cfg : config) (w : world) (schemas : dict) (p : process)
  (k : nat) (r : response) :
  _load_tool_schemas (schema_dir w) = Ok schemas ->
  Forall is_schema_dict schemas ->
  popen w = Ok p ->
  (k < 30)%nat ->
  (forall i, (i < k)%nat -> attempt_fails cfg (backend w) i = true) ->
  backend w k (status_call cfg) = Ok r ->
  status_code r = 200%Z ->
  filter is_listen (fst (main cfg w)) = [EvListen "0.0.0.0" (TOOL_PORT cfg)]
  /\
  (listen w = Ok tt ->
   filter is_serving (fst (main cfg w)) = [EvServeForever; EvServerClose]
   /\ forall z,
        process_wait w = Ok z ->
        snd (main cfg w)
        = match serve_end w with
          | Failed _ => SystemExit 1
          | _ => Returned
          end)
  /\
  (forall e,
      listen w = Raise e ->
      filter is_serving (fst (main cfg w)) = []
      /\ forall z, process_wait w = Ok z -> snd (main cfg w) = SystemExit 1).
Proof.
  intros Hs Hd Hp Hk Hfail Hr Hst.
  assert (W : outcome (_wait_for_server_ready cfg (backend w) 30 1) = Ok VNone).
  { apply (wait_ready_outcome cfg (backend w) 30 1 k r Z.le_0_1); assumption. }
  assert (R : outcome (register_tools cfg (mkHandler schemas (Some p)) (registry w))
              = Ok VNone).
  { apply register_tools_outcome. exact Hd. }
  split; [|split].
  - rewrite (main_filter is_listen cfg w schemas p
               (fun _ => eq_refl) eq_refl eq_refl Hs Hp), W, R.
    destruct (listen w); reflexivity.
  - intros Hl. split.
    + rewrite (main_filter is_serving cfg w schemas p
                 (fun _ => eq_refl) eq_refl eq_refl Hs Hp), W, R, Hl.
      reflexivity.
    + intros z Hw.
      rewrite (main_exit cfg w schemas p Hs Hp), Hw, W, R, Hl.
      destruct (serve_end w); reflexivity.
  - intros e Hl. split.
    + rewrite (main_filter is_serving cfg w schemas p
                 (fun _ => eq_refl) eq_refl eq_refl Hs Hp), W, R, Hl.
      reflexivity.
    + intros z Hw.
      rewrite (main_exit cfg w schemas p Hs Hp), Hw, W, R, Hl.
      reflexivity.
Qed.

Lemma main_serves_whatever_the_registry_answers_witness :
  filter is_serving
    (fst (main default_config
            (mkWorld (Ok [("revit_element_query.json", Ok (VDict []))])
               (Ok (mkProcess 4242)) ready_on_second_probe unreachable
               (Ok tt) [] Interrupted (Ok 0%Z))))
  = [EvServeForever; EvServerClose]
  /\
  snd (main default_config
         (mkWorld (Ok [("revit_element_query.json", Ok (VDict []))])
            (Ok (mkProcess 4242)) ready_on_second_probe unreachable
            (Ok tt) [] Interrupted (Ok 0%Z)))
  = Returned.
Proof.
  destruct (main_serves_whatever_the_registry_answers default_config
              (mkWorld (Ok [("revit_element_query.json", Ok (VDict []))])
                 (Ok (mkProcess 4242)) ready_on_second_probe unreachable
                 (Ok tt) [] Interrupted (Ok 0%Z))
              [("revit_element_query", VDict [])] (mkProcess 4242) 1
              (mkResponse 200 "OK" (Raise (mkExn JSONDecodeError "Expecting value"))))
    as (_ & H2 & _).
  - reflexivity.
  - repeat constructor. eexists; reflexivity.
  - reflexivity.
  - lia.
  - intros i Hi. assert (i = 0)%nat as -> by lia. reflexivity.
  - reflexivity.
  - reflexivity.
  - destruct (H2 eq_refl) as [S E]. split; [exact S | exact (E 0%Z eq_refl)].
Defined.


